(** * zclist: zero-copy slices of Python lists

    A shallow embedding of [zclist.py] (classes [ZeroCopySlice] and
    [ZeroCopyList]) and the properties of its views.

    Python lists are mutable objects shared by reference, so the lists live
    in a store indexed by locations and a slice holds a location, not a
    value.  A method of [ZeroCopySlice] runs in a small state-and-exception
    monad over the receiver's fields and the store: what a method assigns
    before it raises stays assigned, as in Python. *)

From stdpp Require Import base numbers list list_numbers gmap strings pretty.

Set Default Proof Using "Type".
Open Scope Z_scope.

(** ** Exceptions and results *)

Inductive exn := TypeError | IndexError | ValueError.

Inductive result (A : Type) :=
  | Ok (a : A)
  | Raise (e : exn).
Arguments Ok {A} a.
Arguments Raise {A} e.

(** Locations of list objects. *)
Abbreviation loc := positive.

(** The instance fields of a [ZeroCopySlice]: [self.__list], [self.__low],
    [self.__high]. *)
Record ZeroCopySlice := mkSlice {
  zlist : loc;
  low : Z;
  high : Z
}.

Section ZeroCopy.

(** The elements of the lists are arbitrary Python values; the code only
    uses their [==], their [repr] and, in the message of [index], their
    ['%s' % x], which raises [TypeError] for a tuple that is not of
    length one. *)
Context {T : Type}.
Variable py_eq : T -> T -> bool.
Variable py_repr : T -> string.
Variable py_format : T -> option string.

(** Values passed where the code tests the type with [isinstance]. *)
Inductive pyobj :=
  | PyNone
  | PyBool (b : bool)
  | PyInt (z : Z)
  | PyStr (s : string)
  | PyTuple (xs : list T)
  | PyList (r : loc).

(** [isinstance(v, (int, long))]: [bool] is a subclass of [int]. *)
Definition as_int (v : pyobj) : option Z :=
  match v with
  | PyInt z => Some z
  | PyBool b => Some (if b then 1 else 0)
  | _ => None
  end.

(** ** The store and the list primitives *)

Abbreviation heap := (gmap loc (list T)).

(** The position that Python's list indexing [l[idx]] designates: a negative
    index counts from the end, anything out of range is an [IndexError]. *)
Definition list_position (l : list T) (idx : Z) : option nat :=
  let n := Z.of_nat (length l) in
  let p := if idx <? 0 then idx + n else idx in
  if (0 <=? p) && (p <? n) then Some (Z.to_nat p) else None.

Definition list_getitem (l : list T) (idx : Z) : result T :=
  match list_position l idx with
  | Some p =>
      match l !! p with
      | Some x => Ok x
      | None => Raise IndexError
      end
  | None => Raise IndexError
  end.

Definition list_setitem (l : list T) (idx : Z) (x : T) : result (list T) :=
  match list_position l idx with
  | Some p => Ok (<[p := x]> l)
  | None => Raise IndexError
  end.

(** ** The method monad *)

Record state := mkState {
  self : ZeroCopySlice;
  store : heap
}.

Definition M (A : Type) := state -> result A * state.

Definition ret {A} (a : A) : M A := fun s => (Ok a, s).
Definition raise {A} (e : exn) : M A := fun s => (Raise e, s).
Definition bind {A B} (m : M A) (k : A -> M B) : M B :=
  fun s =>
    match m s with
    | (Ok a, s') => k a s'
    | (Raise e, s') => (Raise e, s')
    end.

Notation "x <- m ;; k" := (bind m (fun x => k))
  (at level 100, m at next level, right associativity).
Notation "m ;;; k" := (bind m (fun _ => k))
  (at level 100, right associativity).

Definition get_low : M Z := fun s => (Ok (low (self s)), s).
Definition get_high : M Z := fun s => (Ok (high (self s)), s).
Definition set_low (z : Z) : M unit := fun s =>
  (Ok tt, mkState (mkSlice (zlist (self s)) z (high (self s))) (store s)).
Definition set_high (z : Z) : M unit := fun s =>
  (Ok tt, mkState (mkSlice (zlist (self s)) (low (self s)) z) (store s)).

(** The list [self.__list] as the store has it now. *)
Definition backing (s : state) : list T := store s !!! zlist (self s).

(** [len(self.__list)], [self.__list[idx]] and [self.__list[idx] = x]. *)
Definition list_len : M Z := fun s => (Ok (Z.of_nat (length (backing s))), s).
Definition list_get (idx : Z) : M T := fun s => (list_getitem (backing s) idx, s).
Definition list_set (idx : Z) (x : T) : M unit := fun s =>
  match list_setitem (backing s) idx x with
  | Ok l' => (Ok tt, mkState (self s) (<[zlist (self s) := l']> (store s)))
  | Raise e => (Raise e, s)
  end.

(** ** ZeroCopySlice *)

Definition readjust_bounds : M unit :=
  lo <- get_low ;;
  n <- list_len ;;
  if n <=? lo then
    (set_low 0 ;;; set_high 0)
  else
    (hi <- get_high ;;
     set_high (Z.min hi n)).

Definition verify_bounds (lo hi : Z) : M unit :=
  slo <- get_low ;;
  shi <- get_high ;;
  if negb ((slo <=? lo) && (lo <? shi)) then raise IndexError
  else if negb ((slo <=? hi) && (hi <=? shi)) then raise IndexError
  else ret tt.

Definition verify_index (idx : Z) : M unit :=
  slo <- get_low ;;
  shi <- get_high ;;
  if negb ((slo <=? idx) && (idx <? shi)) then raise IndexError
  else ret tt.

(** [ZeroCopySlice(l, i, j)]. *)
Definition ZeroCopySlice_init (h : heap) (l i j : pyobj) : result ZeroCopySlice :=
  match l with
  | PyList r =>
      match as_int i, as_int j with
      | Some i, Some j =>
          let n := Z.of_nat (length (h !!! r)) in
          let idx := if i <? 0 then n + i else i in
          if (n <=? idx) && negb (idx =? 0) then Raise IndexError
          else
            let lo := idx in
            let idx := if j <? 0 then n + j else j in
            if n <? idx then Raise IndexError
            else Ok (mkSlice r lo idx)
      | _, _ => Raise TypeError
      end
  | _ => Raise TypeError
  end.

(** [range(a, b)]. *)
Definition range (a b : Z) : list Z := seqZ a (b - a).

Fixpoint repr_loop (idxs : list Z) (s : string) : M string :=
  match idxs with
  | [] => ret s
  | i :: rest =>
      x <- list_get i ;;
      repr_loop rest (s +:+ ", " +:+ py_repr x)
  end.

Definition repr : M string :=
  readjust_bounds ;;;
  lo <- get_low ;;
  hi <- get_high ;;
  if hi <=? lo then ret "[]"%string
  else
    (x <- list_get lo ;;
     s <- repr_loop (range (lo + 1) hi) ("[" +:+ py_repr x) ;;
     ret (s +:+ "]")).

Definition str : M string := repr.

Fixpoint contains_loop (idxs : list Z) (x : T) : M bool :=
  match idxs with
  | [] => ret false
  | i :: rest =>
      y <- list_get i ;;
      if py_eq y x then ret true else contains_loop rest x
  end.

Definition contains (x : T) : M bool :=
  readjust_bounds ;;;
  lo <- get_low ;;
  hi <- get_high ;;
  contains_loop (range lo hi) x.

Definition getitem (i : Z) : M T :=
  readjust_bounds ;;;
  lo <- get_low ;;
  hi <- get_high ;;
  let idx := if i <? 0 then hi + i else lo + i in
  verify_index idx ;;;
  list_get idx.

Definition getslice (i j : Z) : M ZeroCopySlice :=
  readjust_bounds ;;;
  slo <- get_low ;;
  shi <- get_high ;;
  let lo := if i <? 0 then shi + i else slo + i in
  let hi := if j <? 0 then shi + j else slo + j in
  verify_bounds lo hi ;;;
  fun s => (ZeroCopySlice_init (store s) (PyList (zlist (self s))) (PyInt lo) (PyInt hi), s).

Definition len : M Z :=
  readjust_bounds ;;;
  lo <- get_low ;;
  hi <- get_high ;;
  ret (hi - lo).

Definition setitem (i : Z) (x : T) : M unit :=
  readjust_bounds ;;;
  lo <- get_low ;;
  hi <- get_high ;;
  let idx := if i <? 0 then hi + i else lo + i in
  verify_index idx ;;;
  list_set idx x.

Fixpoint count_loop (idxs : list Z) (x : T) (count : Z) : M Z :=
  match idxs with
  | [] => ret count
  | i :: rest =>
      y <- list_get i ;;
      count_loop rest x (if py_eq y x then count + 1 else count)
  end.

Definition count (x : T) : M Z :=
  readjust_bounds ;;;
  lo <- get_low ;;
  hi <- get_high ;;
  count_loop (range lo hi) x 0.

Fixpoint index_loop (idxs : list Z) (x : T) (begin : Z) : M Z :=
  match idxs with
  | [] =>
      match py_format x with
      | Some _ => raise ValueError
      | None => raise TypeError
      end
  | i :: rest =>
      y <- list_get i ;;
      if py_eq y x then ret (i - begin) else index_loop rest x begin
  end.

Definition index (x : T) (start stop : option Z) : M Z :=
  readjust_bounds ;;;
  lo <- get_low ;;
  hi <- get_high ;;
  let begin :=
    match start with
    | None => lo
    | Some st => if st <? 0 then hi + st else lo + st
    end in
  let end_ :=
    match stop with
    | None => hi
    | Some sp => if sp <? 0 then hi + sp else lo + sp
    end in
  verify_bounds begin end_ ;;;
  index_loop (range begin end_) x begin.

(** ** ZeroCopyList *)

(** [ZeroCopyList(l)]: a new list object holding the elements of [l]. *)
Definition ZeroCopyList_init (h : heap) (l : pyobj) : result (loc * heap) :=
  let new xs := let r := fresh (dom h) in Ok (r, <[r := xs]> h) in
  match l with
  | PyNone => new []
  | PyList r => new (h !!! r)
  | PyTuple xs => new xs
  | _ => Raise TypeError
  end.

(** [ZeroCopyList.__getslice__(self, i, j)], with the arguments the method
    receives.  (For the expression [z[i:j]] Python 2 adds [len(z)] to a
    negative bound before it calls the method; so it does for
    [ZeroCopySlice.__getslice__].) *)
Definition ZeroCopyList_getslice (h : heap) (z : loc) (i j : pyobj) : result ZeroCopySlice :=
  ZeroCopySlice_init h (PyList z) i j.

(** ** Reading a run *)

(** The state a method leaves and the value or exception it produces. *)
Definition exec {A} (m : M A) (s : state) : state := snd (m s).
Definition eval {A} (m : M A) (s : state) : result A := fst (m s).

(** [len(self.__list)] in a state. *)
Definition backing_len (s : state) : Z := Z.of_nat (length (backing s)).

(** The receiver with its window emptied, as [__readjust_bounds] leaves it
    when the list is too short. *)
Definition collapsed (s : state) : state :=
  mkState (mkSlice (zlist (self s)) 0 0) (store s).

(** The receiver with its upper bound clipped to the list. *)
Definition clipped (s : state) : state :=
  mkState (mkSlice (zlist (self s)) (low (self s))
             (Z.min (high (self s)) (backing_len s))) (store s).

(** The receiver after [__readjust_bounds]. *)
Definition adjusted (s : state) : state := exec readjust_bounds s.

(** The bound that [__init__] computes from an argument: a negative one
    has the length of the list added. *)
Definition resolve (n i : Z) : Z := if i <? 0 then n + i else i.

(** The absolute index that the methods compute from a relative one:
    from [high] when it is negative, from [low] otherwise. *)
Definition absolute (s : state) (i : Z) : Z :=
  if i <? 0 then high (self s) + i else low (self s) + i.

(** What [__verify_bounds] and [__verify_index] accept. *)
Definition bounds_ok (s : state) (lo hi : Z) : Prop :=
  (low (self s) <= lo < high (self s)) /\ (low (self s) <= hi <= high (self s)).
Definition index_ok (s : state) (idx : Z) : Prop :=
  low (self s) <= idx < high (self s).

(** The indices that the list [l] can be read at. *)
Definition readable (l : list T) (p : Z) : Prop :=
  - Z.of_nat (length l) <= p < Z.of_nat (length l).

(** Whether [l[p] == x]. *)
Definition holds_at (l : list T) (x : T) (p : Z) : bool :=
  match list_getitem l p with
  | Ok y => py_eq y x
  | Raise _ => false
  end.

(** The number of indices [p] of [range(lo, hi)] with [l[p] == x]. *)
Definition occurrences (l : list T) (x : T) (lo hi : Z) : Z :=
  Z.of_nat (length (filter (fun p => holds_at l x p) (range lo hi))).

(** The range that [index] searches: [start] and [stop] resolved in the
    re-adjusted receiver. *)
Definition search_begin (s : state) (start : option Z) : Z :=
  match start with
  | None => low (self s)
  | Some st => absolute s st
  end.

Definition search_end (s : state) (stop : option Z) : Z :=
  match stop with
  | None => high (self s)
  | Some sp => absolute s sp
  end.

(** The elements that a view shows: [l[low:high]], for the re-adjusted
    bounds and the list as it is now. *)
Definition window (s : state) : list T :=
  take (Z.to_nat (high (self (adjusted s)) - low (self (adjusted s))))
    (drop (Z.to_nat (low (self (adjusted s)))) (backing s)).

(** The Python slice [l[b:e]] of a list, for [0 <= b]. *)
Definition segment (l : list T) (b e : Z) : list T :=
  take (Z.to_nat (e - b)) (drop (Z.to_nat b) l).

(** The text of a Python list whose elements print as [xs]. *)
Definition render (xs : list string) : string :=
  "[" +:+ String.concat ", " xs +:+ "]".

End ZeroCopy.

(** ** The lists of the test-suite

    The tests of [zclist.py] run over the list [[0, 1, ..., 9]] of Python
    integers: [==] is equality of integers and [repr] and ['%s'] print the
    decimal numeral. *)

Definition int_format (z : Z) : option string := Some (pretty z).

(** [l = [0, 1, 2, 3, 4, 5, 6, 7, 8, 9]], allocated at location 1. *)
Definition digits : list Z := seqZ 0 10.
Definition digits_heap : gmap loc (list Z) := {[ 1%positive := digits ]}.

(** The store with one empty list, [m = []]. *)
Definition empty_heap : gmap loc (list Z) := {[ 1%positive := [] ]}.

(** [ZeroCopySlice(l, i, j)] over the list of digits, and a method run on
    the slice it returns. *)
Definition digits_slice (i j : Z) : result ZeroCopySlice :=
  ZeroCopySlice_init digits_heap (PyList 1%positive) (PyInt i) (PyInt j).

Definition on_slice {A} (v : result ZeroCopySlice) (h : gmap loc (list Z))
    (m : M A) : result A :=
  match v with
  | Ok v => eval m (mkState v h)
  | Raise e => Raise e
  end.

(** The list of digits after its owner has deleted all but the first
    three elements, and a slice [[4, 7)] built before that. *)
Definition shrunk_heap : gmap loc (list Z) := {[ 1%positive := seqZ 0 3 ]}.
Definition slice_4_7 : ZeroCopySlice := mkSlice 1%positive 4 7.
Definition shrunk_state : state := mkState slice_4_7 shrunk_heap.
Definition digits_state : state := mkState slice_4_7 digits_heap.

(** [z = ZeroCopyList(l)] over the digits: a second list object. *)
Definition zcl_heap : gmap loc (list Z) :=
  match ZeroCopyList_init digits_heap (PyList 1%positive) with
  | Ok (_, h) => h
  | Raise _ => digits_heap
  end.

Section Properties.

Context {T : Type}.
Variable py_eq : T -> T -> bool.
Variable py_repr : T -> string.
Variable py_format : T -> option string.

Implicit Types (s : @state T) (h : gmap loc (list T)) (v : ZeroCopySlice).

(** ** Proof tools *)

Ltac zcase_on c :=
  lazymatch c with
  | (?a <? ?b) => destruct (Z.ltb_spec a b)
  | (?a <=? ?b) => destruct (Z.leb_spec a b)
  | (?a =? ?b) => destruct (Z.eqb_spec a b)
  end.

Ltac zcases :=
  repeat match goal with
  | |- context [if ?c then _ else _] => zcase_on c
  | |- context [negb ?c] => zcase_on c
  | |- context [?c && _] => zcase_on c
  | |- context [_ && ?c] => zcase_on c
  | H : context [if ?c then _ else _] |- _ => zcase_on c
  | H : context [?c && _] |- _ => zcase_on c
  | H : context [_ && ?c] |- _ => zcase_on c
  end.

Ltac unfold_m :=
  unfold exec, eval, readjust_bounds, verify_bounds, verify_index,
    bind, ret, raise, get_low, get_high, set_low, set_high,
    list_len, list_get, list_set in *.

Lemma readjust_bounds_run s :
  readjust_bounds s =
    (Ok tt, if backing_len s <=? low (self s) then collapsed s else clipped s).
Proof.
  unfold_m. unfold backing_len, collapsed, clipped. simpl.
  destruct (Z.leb_spec (Z.of_nat (length (backing s))) (low (self s))); reflexivity.
Qed.

Lemma readjust_bounds_collapse s :
  backing_len s <= low (self s) -> readjust_bounds s = (Ok tt, collapsed s).
Proof.
  intros H. rewrite readjust_bounds_run.
  destruct (Z.leb_spec (backing_len s) (low (self s))); [reflexivity | lia].
Qed.

Lemma readjust_bounds_clip s :
  low (self s) < backing_len s -> readjust_bounds s = (Ok tt, clipped s).
Proof.
  intros H. rewrite readjust_bounds_run.
  destruct (Z.leb_spec (backing_len s) (low (self s))); [lia | reflexivity].
Qed.

Lemma backing_collapsed s : backing (collapsed s) = backing s.
Proof. reflexivity. Qed.

Lemma backing_clipped s : backing (clipped s) = backing s.
Proof. reflexivity. Qed.

(** *** Shrinking the backing list *)

Lemma exec_readjust_collapse s :
  backing_len s <= low (self s) -> exec readjust_bounds s = collapsed s.
Proof. intros H. unfold exec. by rewrite readjust_bounds_collapse. Qed.

Lemma exec_readjust_clip s :
  low (self s) < backing_len s -> exec readjust_bounds s = clipped s.
Proof. intros H. unfold exec. by rewrite readjust_bounds_clip. Qed.

(** Every method on a receiver whose lower bound is beyond the list. *)
Ltac collapse H :=
  unfold len, getitem, setitem, getslice, index, contains, count, repr, bind;
  rewrite (readjust_bounds_collapse _ H); unfold_m; simpl;
  zcases; try lia; try reflexivity.

Lemma len_collapse s :
  backing_len s <= low (self s) -> len s = (Ok 0, collapsed s).
Proof. intros H. collapse H. Qed.

Lemma getitem_collapse s i :
  backing_len s <= low (self s) -> getitem i s = (Raise IndexError, collapsed s).
Proof. intros H. collapse H. Qed.

Lemma setitem_collapse s i x :
  backing_len s <= low (self s) -> setitem i x s = (Raise IndexError, collapsed s).
Proof. intros H. collapse H. Qed.

Lemma getslice_collapse s i j :
  backing_len s <= low (self s) -> getslice i j s = (Raise IndexError, collapsed s).
Proof. intros H. collapse H. Qed.

Lemma index_collapse s x start stop :
  backing_len s <= low (self s) ->
  index py_eq py_format x start stop s = (Raise IndexError, collapsed s).
Proof. intros H. destruct start, stop; collapse H. Qed.

Lemma contains_collapse s x :
  backing_len s <= low (self s) -> contains py_eq x s = (Ok false, collapsed s).
Proof. intros H. collapse H. Qed.

Lemma count_collapse s x :
  backing_len s <= low (self s) -> count py_eq x s = (Ok 0, collapsed s).
Proof. intros H. collapse H. Qed.

Lemma repr_collapse s :
  backing_len s <= low (self s) -> repr py_repr s = (Ok "[]"%string, collapsed s).
Proof. intros H. collapse H. Qed.

(** Re-adjustment never produces a position the window did not have. *)
Lemma readjust_never_widens s p :
  low (self (exec readjust_bounds s)) <= p < high (self (exec readjust_bounds s)) ->
  low (self s) <= p < high (self s).
Proof.
  unfold exec. rewrite readjust_bounds_run.
  destruct (Z.leb_spec (backing_len s) (low (self s))); simpl; lia.
Qed.

(** C2. Shrink invariant: once the backing list is no longer than the lower
    bound of a view, every method first collapses the window to
    [low = high = 0]: [len] is 0 and every index access, reading or
    writing, at any integer index, raises [IndexError] (so do sub-view
    extraction and search, while membership, count and rendering see an
    empty window).  When instead the lower bound is inside the list,
    re-adjustment keeps [low] and sets [high] to [min(high, len(list))].
    In both cases the adjusted window is included in the old one. *)
Theorem C2_shrink_invariant s :
  (backing_len s <= low (self s) ->
     exec readjust_bounds s = collapsed s /\
     low (self (collapsed s)) = 0 /\ high (self (collapsed s)) = 0 /\
     len s = (Ok 0, collapsed s) /\
     (forall i, getitem i s = (Raise IndexError, collapsed s)) /\
     (forall i x, setitem i x s = (Raise IndexError, collapsed s)) /\
     (forall i j, getslice i j s = (Raise IndexError, collapsed s)) /\
     (forall x start stop,
        index py_eq py_format x start stop s = (Raise IndexError, collapsed s)) /\
     (forall x, contains py_eq x s = (Ok false, collapsed s)) /\
     (forall x, count py_eq x s = (Ok 0, collapsed s)) /\
     repr py_repr s = (Ok "[]"%string, collapsed s)) /\
  (low (self s) < backing_len s ->
     exec readjust_bounds s = clipped s /\
     zlist (self (clipped s)) = zlist (self s) /\
     low (self (clipped s)) = low (self s) /\
     high (self (clipped s)) = Z.min (high (self s)) (backing_len s) /\
     high (self (clipped s)) <= high (self s)) /\
  store (exec readjust_bounds s) = store s /\
  (forall p,
     low (self (exec readjust_bounds s)) <= p < high (self (exec readjust_bounds s)) ->
     low (self s) <= p < high (self s)).
Proof.
  split; [| split; [| split]].
  - intros H. split; [by apply exec_readjust_collapse |].
    do 2 (split; [reflexivity |]).
    split; [by apply len_collapse |].
    split; [intros; by apply getitem_collapse |].
    split; [intros; by apply setitem_collapse |].
    split; [intros; by apply getslice_collapse |].
    split; [intros; by apply index_collapse |].
    split; [intros; by apply contains_collapse |].
    split; [intros; by apply count_collapse | by apply repr_collapse].
  - intros H. split; [by apply exec_readjust_clip |].
    simpl. repeat split. lia.
  - unfold exec. rewrite readjust_bounds_run.
    by destruct (backing_len s <=? low (self s)).
  - apply readjust_never_widens.
Qed.

(** *** Construction *)

(** C3. Construction [ZeroCopySlice(l, i, j)] over a list and integers
    resolves a negative [i] or [j] by adding [len(l)]; it raises
    [IndexError] exactly when the resolved low is [>= len(l)] and not 0, or
    the resolved high is [> len(l)], and otherwise returns the slice of
    [l] with the two resolved bounds.  It raises [TypeError] when [l] is
    not a list or [i] or [j] is not an integer, and in no other case.
    Over an empty list, [(0, 0)] gives a slice of length 0 and [(1, 1)]
    raises [IndexError]. *)
Theorem C3_construction h :
  (forall r vi vj i j,
     as_int vi = Some i -> as_int vj = Some j ->
     let n := Z.of_nat (length (h !!! r)) in
     let lo := resolve n i in
     let hi := resolve n j in
     (ZeroCopySlice_init h (PyList r) vi vj = Raise IndexError <->
        (n <= lo /\ lo <> 0) \/ n < hi) /\
     (~ ((n <= lo /\ lo <> 0) \/ n < hi) ->
        ZeroCopySlice_init h (PyList r) vi vj = Ok (mkSlice r lo hi))) /\
  (forall l i j,
     (forall r, l <> PyList r) \/ as_int i = None \/ as_int j = None ->
     ZeroCopySlice_init h l i j = Raise TypeError) /\
  (forall l i j,
     ZeroCopySlice_init h l i j = Raise TypeError ->
     (forall r, l <> PyList r) \/ as_int i = None \/ as_int j = None) /\
  (forall r,
     h !!! r = [] ->
     ZeroCopySlice_init h (PyList r) (PyInt 0) (PyInt 0) = Ok (mkSlice r 0 0) /\
     eval len (mkState (mkSlice r 0 0) h) = Ok 0 /\
     ZeroCopySlice_init h (PyList r) (PyInt 1) (PyInt 1) = Raise IndexError).
Proof.
  split; [| split; [| split]].
  - intros r vi vj i j Hi Hj n lo hi. unfold ZeroCopySlice_init.
    rewrite Hi, Hj. simpl. fold n. fold (resolve n i) (resolve n j). fold lo hi.
    destruct (Z.leb_spec n lo), (Z.eqb_spec lo 0), (Z.ltb_spec n hi); simpl;
      (split;
       [split; [intros Heq; first [discriminate Heq | lia]
               | intros Hc; first [reflexivity | lia]]
       | intros Hno; first [reflexivity | exfalso; lia]]).
  - intros l i j [Hl | [Hi | Hj]]; unfold ZeroCopySlice_init.
    + destruct l; try reflexivity. by destruct (Hl r).
    + rewrite Hi. by destruct l.
    + rewrite Hj. destruct l; try reflexivity. by destruct (as_int i).
  - intros l i j. unfold ZeroCopySlice_init.
    destruct l; try (intros _; left; intros r; discriminate).
    destruct (as_int i) as [a|]; [| intros _; right; by left].
    destruct (as_int j) as [b|]; [| intros _; right; by right].
    simpl. intros H. exfalso.
    repeat match type of H with
    | (if ?c then _ else _) = _ => destruct c; try discriminate
    end.
  - intros r Hr. unfold ZeroCopySlice_init, eval, len, bind. simpl.
    rewrite readjust_bounds_collapse by (unfold backing_len, backing; simpl; rewrite Hr; simpl; lia).
    rewrite Hr. done.
Qed.

(** *** Sub-views *)

Lemma adjusted_run s : readjust_bounds s = (Ok tt, adjusted s).
Proof. unfold adjusted, exec. by rewrite readjust_bounds_run. Qed.

Lemma adjusted_cases s :
  (backing_len s <= low (self s) /\ adjusted s = collapsed s) \/
  (low (self s) < backing_len s /\ adjusted s = clipped s).
Proof.
  destruct (Z.le_gt_cases (backing_len s) (low (self s))).
  - left. split; [done | by apply exec_readjust_collapse].
  - right. split; [done | by apply exec_readjust_clip].
Qed.

Lemma adjusted_store s : store (adjusted s) = store s.
Proof. destruct (adjusted_cases s) as [[_ ->] | [_ ->]]; reflexivity. Qed.

Lemma adjusted_zlist s : zlist (self (adjusted s)) = zlist (self s).
Proof. destruct (adjusted_cases s) as [[_ ->] | [_ ->]]; reflexivity. Qed.

Lemma adjusted_backing s : backing (adjusted s) = backing s.
Proof. unfold backing. by rewrite adjusted_store, adjusted_zlist. Qed.

Lemma adjusted_backing_len s : backing_len (adjusted s) = backing_len s.
Proof. unfold backing_len. by rewrite adjusted_backing. Qed.

(** After re-adjustment the upper bound is inside the list. *)
Lemma adjusted_high_le s : high (self (adjusted s)) <= backing_len s.
Proof.
  destruct (adjusted_cases s) as [[_ ->] | [_ ->]]; simpl; unfold backing_len; lia.
Qed.

Lemma adjusted_idem s : adjusted (adjusted s) = adjusted s.
Proof.
  destruct (adjusted_cases s) as [[H ->] | [H ->]].
  - unfold adjusted, exec. rewrite readjust_bounds_run. simpl.
    change (backing_len (collapsed s)) with (backing_len s).
    unfold collapsed, clipped. simpl.
    change (backing_len (mkState (mkSlice (zlist (self s)) 0 0) (store s)))
      with (backing_len s).
    destruct (Z.leb_spec (backing_len s) 0); [done |].
    f_equal. f_equal. unfold backing_len in *. lia.
  - unfold adjusted, exec. rewrite readjust_bounds_run. simpl.
    change (backing_len (clipped s)) with (backing_len s).
    destruct (Z.leb_spec (backing_len s) (low (self s))); [lia |].
    unfold clipped. simpl.
    change (backing_len (mkState (mkSlice (zlist (self s)) (low (self s))
              (Z.min (high (self s)) (backing_len s))) (store s)))
      with (backing_len s).
    f_equal. f_equal. lia.
Qed.

Lemma verify_bounds_run s lo hi :
  (bounds_ok s lo hi /\ verify_bounds lo hi s = (Ok tt, s)) \/
  (~ bounds_ok s lo hi /\ verify_bounds lo hi s = (Raise IndexError, s)).
Proof.
  unfold bounds_ok. unfold_m. simpl. zcases; simpl; first [left; split; [lia | done] | right; split; [lia | done]].
Qed.

Lemma verify_index_run s idx :
  (index_ok s idx /\ verify_index idx s = (Ok tt, s)) \/
  (~ index_ok s idx /\ verify_index idx s = (Raise IndexError, s)).
Proof.
  unfold index_ok. unfold_m. simpl. zcases; simpl; first [left; split; [lia | done] | right; split; [lia | done]].
Qed.

(** The constructor accepts the bounds that [__verify_bounds] accepted,
    but resolves them once more against the length of the list. *)
Lemma init_verified h r lo hi slo shi :
  let n := Z.of_nat (length (h !!! r)) in
  shi <= n -> slo <= lo < shi -> slo <= hi <= shi ->
  ZeroCopySlice_init h (PyList r) (PyInt lo) (PyInt hi)
    = Ok (mkSlice r (resolve n lo) (resolve n hi)).
Proof.
  intros n Hn Hlo Hhi. unfold ZeroCopySlice_init, resolve. simpl. fold n.
  zcases; simpl; first [reflexivity | lia].
Qed.

Lemma getslice_run s i j :
  let a := adjusted s in
  let lo := absolute a i in
  let hi := absolute a j in
  (bounds_ok a lo hi /\
   getslice i j s =
     (Ok (mkSlice (zlist (self s)) (resolve (backing_len s) lo) (resolve (backing_len s) hi)), a)) \/
  (~ bounds_ok a lo hi /\ getslice i j s = (Raise IndexError, a)).
Proof.
  intros a lo hi. unfold getslice, bind. rewrite adjusted_run. fold a.
  unfold get_low, get_high. fold (absolute a i) (absolute a j). fold lo hi.
  destruct (verify_bounds_run a lo hi) as [[Hok ->] | [Hno ->]]; [left | right; done].
  split; [done |]. destruct Hok as [Hlo Hhi].
  pose proof (adjusted_high_le s) as Hle. fold a in Hle.
  unfold a at 1 2. rewrite adjusted_store, adjusted_zlist.
  rewrite (init_verified _ _ lo hi (low (self a)) (high (self a))); [done | | done | done].
  exact Hle.
Qed.

Lemma len_run s :
  len s = (Ok (high (self (adjusted s)) - low (self (adjusted s))), adjusted s).
Proof. unfold len, bind. by rewrite adjusted_run. Qed.

(** C4. Sub-view validation: with [low] and [high] the bounds after
    re-adjustment and [(begin, end)] the absolute bounds resolved from
    [(i, j)], [getslice i j] returns a slice exactly when
    [low <= begin < high] and [low <= end <= high], and raises
    [IndexError] otherwise.  In particular, on a view of positive length
    [n] the call [getslice n n] raises [IndexError]. *)
Theorem C4_subview_validation s i j :
  let a := adjusted s in
  let begin := absolute a i in
  let end_ := absolute a j in
  ((exists v, eval (getslice i j) s = Ok v) <->
     (low (self a) <= begin < high (self a)) /\
     (low (self a) <= end_ <= high (self a))) /\
  (~ ((low (self a) <= begin < high (self a)) /\
      (low (self a) <= end_ <= high (self a))) ->
     eval (getslice i j) s = Raise IndexError) /\
  (forall n, eval len s = Ok n -> 0 < n ->
     eval (getslice n n) s = Raise IndexError /\
     eval (getslice n n) (exec len s) = Raise IndexError).
Proof.
  intros a begin end_. split; [| split].
  - unfold eval.
    destruct (getslice_run s i j) as [[Hok ->] | [Hno ->]]; simpl.
    + split; [intros _; exact Hok | eauto].
    + split; [intros [v Hv]; discriminate | intros H; by destruct Hno].
  - intros Hno. unfold eval.
    destruct (getslice_run s i j) as [[Hok ->] | [_ ->]]; [by destruct Hno | done].
  - intros n. unfold eval, exec. rewrite len_run. simpl. intros [= <-] Hpos.
    assert (Hb : forall t, adjusted t = adjusted s ->
              fst (getslice (high (self a) - low (self a))
                     (high (self a) - low (self a)) t) = Raise IndexError).
    { intros t Ht.
      destruct (getslice_run t (high (self a) - low (self a))
                  (high (self a) - low (self a))) as [[Hok _] | [_ ->]]; [| done].
      exfalso. rewrite Ht in Hok. fold a in Hok.
      destruct Hok as [Hlo _]. unfold absolute in Hlo.
      destruct (Z.ltb_spec (high (self a) - low (self a)) 0); lia. }
    split; [by apply Hb | apply Hb, adjusted_idem].
Qed.

(** *** Reads and writes *)

Lemma getitem_run s i :
  let a := adjusted s in
  let idx := absolute a i in
  (index_ok a idx /\ getitem i s = (list_getitem (backing s) idx, a)) \/
  (~ index_ok a idx /\ getitem i s = (Raise IndexError, a)).
Proof.
  intros a idx. unfold getitem, bind. rewrite adjusted_run. fold a.
  unfold get_low, get_high. fold (absolute a i). fold idx.
  destruct (verify_index_run a idx) as [[Hok ->] | [Hno ->]]; [left | right; done].
  split; [done |]. pose proof (adjusted_backing s) as Hb. fold a in Hb.
  unfold list_get. by rewrite Hb.
Qed.

Lemma setitem_run s i x :
  let a := adjusted s in
  let idx := absolute a i in
  (exists p, index_ok a idx /\ list_position (backing s) idx = Some p /\
     setitem i x s =
       (Ok tt, mkState (self a) (<[zlist (self s) := <[p := x]> (backing s)]> (store s)))) \/
  (index_ok a idx /\ list_position (backing s) idx = None /\
     setitem i x s = (Raise IndexError, a)) \/
  (~ index_ok a idx /\ setitem i x s = (Raise IndexError, a)).
Proof.
  intros a idx. unfold setitem, bind. rewrite adjusted_run. fold a.
  unfold get_low, get_high. fold (absolute a i). fold idx.
  destruct (verify_index_run a idx) as [[Hok ->] | [Hno ->]]; [| right; right; done].
  pose proof (adjusted_backing s) as Hb. fold a in Hb.
  pose proof (adjusted_zlist s) as Hz. fold a in Hz.
  pose proof (adjusted_store s) as Hs. fold a in Hs.
  unfold list_set, list_setitem. rewrite Hb, Hz, Hs.
  destruct (list_position (backing s) idx) as [p|] eqn:Hp.
  - left. exists p. done.
  - right. left. done.
Qed.

(** The scanning loops only read. *)
Lemma contains_loop_state idxs x s : snd (contains_loop py_eq idxs x s) = s.
Proof.
  induction idxs as [| i idxs IH]; [done |]. simpl. unfold bind, list_get.
  destruct (list_getitem (backing s) i); [| done].
  destruct (py_eq a x); [done | apply IH].
Qed.

Lemma count_loop_state idxs x c s : snd (count_loop py_eq idxs x c s) = s.
Proof.
  revert c. induction idxs as [| i idxs IH]; intros c; [done |].
  simpl. unfold bind, list_get.
  destruct (list_getitem (backing s) i); [apply IH | done].
Qed.

Lemma index_loop_state idxs x b s : snd (index_loop py_eq py_format idxs x b s) = s.
Proof.
  induction idxs as [| i idxs IH]; simpl.
  - by destruct (py_format x).
  - unfold bind, list_get. destruct (list_getitem (backing s) i); [| done].
    destruct (py_eq a x); [done | apply IH].
Qed.

Lemma repr_loop_state idxs acc s : snd (repr_loop py_repr idxs acc s) = s.
Proof.
  revert acc. induction idxs as [| i idxs IH]; intros acc; [done |].
  simpl. unfold bind, list_get.
  destruct (list_getitem (backing s) i); [apply IH | done].
Qed.

(** Every method but a successful [setitem] leaves the receiver
    re-adjusted and the store as it was. *)
Lemma len_exec s : exec len s = adjusted s.
Proof. unfold exec. by rewrite len_run. Qed.

Lemma getitem_exec s i : exec (getitem i) s = adjusted s.
Proof.
  unfold exec. by destruct (getitem_run s i) as [[_ ->] | [_ ->]].
Qed.

Lemma getslice_exec s i j : exec (getslice i j) s = adjusted s.
Proof.
  unfold exec. by destruct (getslice_run s i j) as [[_ ->] | [_ ->]].
Qed.

Lemma contains_exec s x : exec (contains py_eq x) s = adjusted s.
Proof.
  unfold exec, contains, bind. rewrite adjusted_run.
  unfold get_low, get_high. apply contains_loop_state.
Qed.

Lemma count_exec s x : exec (count py_eq x) s = adjusted s.
Proof.
  unfold exec, count, bind. rewrite adjusted_run.
  unfold get_low, get_high. apply count_loop_state.
Qed.

Lemma index_exec s x start stop :
  exec (index py_eq py_format x start stop) s = adjusted s.
Proof.
  unfold exec, index, bind. rewrite adjusted_run. unfold get_low, get_high.
  match goal with |- context [verify_bounds ?b ?e (adjusted s)] =>
    destruct (verify_bounds_run (adjusted s) b e) as [[_ ->] | [_ ->]] end;
    [apply index_loop_state | done].
Qed.

Lemma repr_exec s : exec (repr py_repr) s = adjusted s.
Proof.
  unfold exec, repr, bind. rewrite adjusted_run. unfold get_low, get_high, ret.
  destruct (high (self (adjusted s)) <=? low (self (adjusted s))); [done |].
  unfold list_get at 1.
  destruct (list_getitem (backing (adjusted s)) (low (self (adjusted s)))); [| done].
  match goal with |- context [repr_loop py_repr ?l ?acc (adjusted s)] =>
    pose proof (repr_loop_state l acc (adjusted s)) as H;
    destruct (repr_loop py_repr l acc (adjusted s)) as [[r|e] t] end;
    simpl in *; by subst.
Qed.

Lemma setitem_raise s i x e :
  eval (setitem i x) s = Raise e ->
  e = IndexError /\ exec (setitem i x) s = adjusted s.
Proof.
  unfold eval, exec.
  destruct (setitem_run s i x) as [(p & _ & _ & ->) | [(_ & _ & ->) | (_ & ->)]];
    simpl; [done | by intros [= <-] ..].
Qed.

(** C8. Atomicity on error: a method that raises has not touched the
    store.  Only [setitem] writes, and it writes after all its checks: if
    it raises (by its own index check, the resolved index being outside
    [[low, high)], or by the list's), every list of the store, the backing
    list included, is as before; if it returns, exactly one element of the
    backing list has been replaced.  All other methods leave the store
    unchanged whether they return or raise. *)
Theorem C8_atomicity s :
  (forall i x e,
     eval (setitem i x) s = Raise e ->
     store (exec (setitem i x) s) = store s /\
     backing (exec (setitem i x) s) = backing s) /\
  (forall i x,
     ~ (low (self (adjusted s)) <= absolute (adjusted s) i < high (self (adjusted s))) ->
     eval (setitem i x) s = Raise IndexError /\
     store (exec (setitem i x) s) = store s) /\
  (forall i x,
     eval (setitem i x) s = Ok tt ->
     exists p,
       list_position (backing s) (absolute (adjusted s) i) = Some p /\
       store (exec (setitem i x) s)
         = <[zlist (self s) := <[p := x]> (backing s)]> (store s)) /\
  (forall i, store (exec (getitem i) s) = store s) /\
  (forall i j, store (exec (getslice i j) s) = store s) /\
  store (exec len s) = store s /\
  (forall x, store (exec (contains py_eq x) s) = store s) /\
  (forall x, store (exec (count py_eq x) s) = store s) /\
  (forall x start stop,
     store (exec (index py_eq py_format x start stop) s) = store s) /\
  store (exec (repr py_repr) s) = store s /\
  store (exec (str py_repr) s) = store s.
Proof.
  split; [| split; [| split]].
  - intros i x e H. apply setitem_raise in H as [_ ->].
    split; [apply adjusted_store | apply adjusted_backing].
  - intros i x Hno. unfold eval, exec.
    destruct (setitem_run s i x) as [(p & Hok & _) | [(Hok & _) | (_ & ->)]];
      [by destruct Hno | by destruct Hno |].
    split; [done | apply adjusted_store].
  - intros i x. unfold eval, exec.
    destruct (setitem_run s i x) as [(p & _ & Hp & ->) | [(_ & _ & ->) | (_ & ->)]];
      simpl; [| done | done].
    intros _. by exists p.
  - unfold str.
    rewrite len_exec, repr_exec.
    repeat split; intros;
      rewrite ?getitem_exec, ?getslice_exec, ?contains_exec, ?count_exec, ?index_exec;
      apply adjusted_store.
Qed.

(** *** Indexing the backing list *)

Lemma list_position_lt (l : list T) idx p :
  list_position l idx = Some p -> (p < length l)%nat.
Proof.
  unfold list_position. intros H.
  destruct (Z.ltb_spec idx 0); zcases; simpl in H; try discriminate;
    injection H as <-; lia.
Qed.

Lemma list_position_nonneg (l : list T) idx :
  0 <= idx < Z.of_nat (length l) -> list_position l idx = Some (Z.to_nat idx).
Proof.
  unfold list_position. intros H. zcases; simpl; first [done | lia].
Qed.

Lemma list_position_insert (l : list T) idx q x :
  list_position (<[q := x]> l) idx = list_position l idx.
Proof. unfold list_position. by rewrite length_insert. Qed.

Lemma list_getitem_insert (l : list T) idx p x :
  list_position l idx = Some p -> list_getitem (<[p := x]> l) idx = Ok x.
Proof.
  intros H. unfold list_getitem. rewrite list_position_insert, H.
  rewrite list_lookup_insert_eq; [done | by eapply list_position_lt].
Qed.

Lemma list_getitem_nonneg (l : list T) idx :
  0 <= idx < Z.of_nat (length l) ->
  exists x, l !! Z.to_nat idx = Some x /\ list_getitem l idx = Ok x.
Proof.
  intros H. unfold list_getitem. rewrite list_position_nonneg by done.
  destruct (l !! Z.to_nat idx) as [x|] eqn:Hx; [eauto |].
  apply lookup_ge_None in Hx. lia.
Qed.

(** A view that accepts an index has not collapsed: its lower bound is
    the one it was built with. *)
Lemma index_ok_clipped s idx :
  index_ok (adjusted s) idx ->
  adjusted s = clipped s /\ low (self (adjusted s)) = low (self s) /\
  idx < backing_len s.
Proof.
  intros H. pose proof (adjusted_high_le s) as Hle.
  destruct (adjusted_cases s) as [[_ Ha] | [_ Ha]]; rewrite Ha in *;
    unfold index_ok in H; simpl in *; [lia |].
  repeat split. lia.
Qed.

(** *** Write-through *)

(** A write that [setitem] performs lands in the backing list at the
    position that [low + k] designates, and nowhere else; the owner of
    the list and every slice of it read the new element there. *)
Lemma setitem_write_through s k x :
  0 <= k ->
  eval (setitem k x) s = Ok tt ->
  let s' := exec (setitem k x) s in
  let idx := low (self s) + k in
  exists p,
    list_position (backing s) idx = Some p /\
    store s' !!! zlist (self s) = <[p := x]> (backing s) /\
    list_getitem (store s' !!! zlist (self s)) idx = Ok x /\
    (forall q, q <> p -> (store s' !!! zlist (self s)) !! q = backing s !! q) /\
    (forall r, r <> zlist (self s) -> store s' !! r = store s !! r) /\
    (forall w j,
       zlist w = zlist (self s) ->
       let t := mkState w (store s') in
       absolute (adjusted t) j = idx ->
       index_ok (adjusted t) idx ->
       eval (getitem j) t = Ok x).
Proof.
  intros Hk. unfold eval, exec.
  destruct (setitem_run s k x) as [(p & Hok & Hp & ->) | [(_ & _ & ->) | (_ & ->)]];
    simpl; [intros _ | done | done].
  destruct (index_ok_clipped _ _ Hok) as (_ & Hlow & _).
  assert (Hidx : absolute (adjusted s) k = low (self s) + k).
  { unfold absolute. rewrite Hlow. destruct (Z.ltb_spec k 0); [lia | done]. }
  rewrite Hidx in Hp.
  exists p. split; [done |].
  rewrite lookup_total_insert_eq.
  split; [done |]. split; [by apply list_getitem_insert |].
  split; [intros q Hq; by apply list_lookup_insert_ne |].
  split; [intros r Hr; by apply lookup_insert_ne |].
  intros w j Hw.
  set (t := mkState w (<[zlist (self s) := <[p := x]> (backing s)]> (store s))).
  intros Hj Hwin. unfold eval.
  destruct (getitem_run t j) as [[_ ->] | [Hno _]]; simpl.
  - rewrite Hj. unfold backing, t. simpl. rewrite Hw, lookup_total_insert_eq.
    by apply list_getitem_insert.
  - destruct Hno. by rewrite Hj.
Qed.

(** *** ZeroCopyList *)

(** C9. [ZeroCopyList.__getslice__] copies nothing: it is the constructor
    of [ZeroCopySlice] applied to the list itself, with the constructor's
    resolution and validation of [(i, j)], and the slice it returns
    refers to the list [z].  A write through the slice is a write to [z],
    and an element that the owner assigns in [z] is what the slice reads
    at that position. *)
Theorem C9_viewable_slice h z i j :
  ZeroCopyList_getslice h z i j = ZeroCopySlice_init h (PyList z) i j /\
  (forall v,
     ZeroCopyList_getslice h z i j = Ok v ->
     let n := Z.of_nat (length (h !!! z)) in
     zlist v = z /\
     (exists a b,
        as_int i = Some a /\ as_int j = Some b /\
        low v = resolve n a /\ high v = resolve n b) /\
     (forall k x,
        eval (setitem k x) (mkState v h) = Ok tt ->
        exists p,
          list_position (h !!! z) (absolute (adjusted (mkState v h)) k) = Some p /\
          store (exec (setitem k x) (mkState v h)) !!! z = <[p := x]> (h !!! z) /\
          (store (exec (setitem k x) (mkState v h)) !!! z) !! p = Some x) /\
     (forall l', backing (mkState v (<[z := l']> h)) = l') /\
     (forall p y l',
        list_setitem (h !!! z) p y = Ok l' ->
        low v <= p < high v ->
        eval (getitem (p - low v)) (mkState v (<[z := l']> h)) = Ok y)).
Proof.
  split; [reflexivity |].
  intros v Hv n. unfold ZeroCopyList_getslice, ZeroCopySlice_init in Hv.
  destruct (as_int i) as [a|] eqn:Ha; [| discriminate].
  destruct (as_int j) as [b|] eqn:Hb; [| discriminate].
  simpl in Hv. fold n in Hv. fold (resolve n a) (resolve n b) in Hv.
  destruct ((n <=? resolve n a) && negb (resolve n a =? 0)); [discriminate |].
  destruct (n <? resolve n b); [discriminate |].
  injection Hv as <-. simpl.
  split; [done |]. split; [by exists a, b |].
  split; [| split].
  - intros k x. unfold eval, exec.
    destruct (setitem_run (mkState (mkSlice z (resolve n a) (resolve n b)) h) k x)
      as [(p & Hok & Hp & ->) | [(_ & _ & ->) | (_ & ->)]]; simpl; [intros _ | done | done].
    exists p. unfold backing in *. simpl in *.
    rewrite lookup_total_insert_eq.
    split; [done |]. split; [done |].
    apply list_lookup_insert_eq. by eapply list_position_lt.
  - intros l'. unfold backing. simpl. by rewrite lookup_total_insert_eq.
  - intros p y l' Hset Hwin. unfold list_setitem in Hset.
    destruct (list_position (h !!! z) p) as [q|] eqn:Hq; [| discriminate].
    injection Hset as <-.
    set (t := mkState (mkSlice z (resolve n a) (resolve n b))
                (<[z := <[q := y]> (h !!! z)]> h)).
    assert (Hbt : backing t = <[q := y]> (h !!! z)).
    { unfold backing, t. simpl. by rewrite lookup_total_insert_eq. }
    assert (Hlen : backing_len t = n).
    { unfold backing_len. by rewrite Hbt, length_insert. }
    pose proof (list_position_lt _ _ _ Hq) as Hlt.
    assert (Hpn : p < n).
    { unfold list_position in Hq. fold n in Hq. zcases; simpl in Hq; try discriminate; lia. }
    assert (Hadj : adjusted t = clipped t).
    { apply exec_readjust_clip. rewrite Hlen. simpl. lia. }
    unfold eval. destruct (getitem_run t (p - resolve n a)) as [[_ ->] | [Hno _]]; simpl.
    + rewrite Hadj. unfold absolute. simpl.
      destruct (Z.ltb_spec (p - resolve n a) 0); [lia |].
      replace (resolve n a + (p - resolve n a)) with p by lia.
      rewrite Hbt. by apply list_getitem_insert.
    + destruct Hno. rewrite Hadj. unfold index_ok, absolute. simpl.
      rewrite Hlen. destruct (Z.ltb_spec (p - resolve n a) 0); lia.
Qed.

(** *** Scanning the window *)

Lemma list_getitem_readable (l : list T) p :
  readable l p -> exists y, list_getitem l p = Ok y.
Proof.
  unfold readable, list_getitem, list_position. intros H.
  destruct (Z.ltb_spec p 0); zcases; simpl; try lia.
  - destruct (l !! Z.to_nat (p + Z.of_nat (length l))) as [y|] eqn:Hy; [eauto |].
    apply lookup_ge_None in Hy. lia.
  - destruct (l !! Z.to_nat p) as [y|] eqn:Hy; [eauto |].
    apply lookup_ge_None in Hy. lia.
Qed.

Lemma list_getitem_unreadable (l : list T) p :
  ~ readable l p -> list_getitem l p = Raise IndexError.
Proof.
  unfold readable, list_getitem, list_position. intros H.
  destruct (Z.ltb_spec p 0); zcases; simpl; first [done | lia].
Qed.

Lemma range_nil a b : b <= a -> range a b = [].
Proof. intros H. unfold range. apply seqZ_nil. lia. Qed.

Lemma range_cons a b : a < b -> range a b = a :: range (a + 1) b.
Proof.
  intros H. unfold range. rewrite seqZ_cons by lia.
  f_equal. f_equal; lia.
Qed.

Lemma elem_of_range a b p : p ∈ range a b <-> a <= p < b.
Proof. unfold range. rewrite elem_of_seqZ. lia. Qed.

Lemma range_readable (l : list T) a b :
  - Z.of_nat (length l) <= a -> b <= Z.of_nat (length l) ->
  Forall (readable l) (range a b).
Proof.
  intros Ha Hb. apply Forall_forall. intros p Hp.
  apply elem_of_range in Hp. unfold readable. lia.
Qed.

Lemma contains_loop_spec s idxs x :
  Forall (readable (backing s)) idxs ->
  contains_loop py_eq idxs x s
    = (Ok (bool_decide (Exists (fun p => holds_at py_eq (backing s) x p) idxs)), s).
Proof.
  induction 1 as [| p idxs Hp _ IH]; simpl.
  - done.
  - unfold bind, list_get.
    destruct (list_getitem_readable _ _ Hp) as [y Hy]. rewrite Hy.
    destruct (py_eq y x) eqn:Heq.
    + unfold ret. rewrite bool_decide_eq_true_2; [done |].
      apply Exists_cons_hd. unfold holds_at. by rewrite Hy, Heq.
    + rewrite IH. f_equal. f_equal. apply bool_decide_ext.
      rewrite Exists_cons. unfold holds_at at 2. rewrite Hy, Heq.
      split; [intros H; by right | intros [[] | H]; exact H].
Qed.

Lemma count_loop_spec s idxs x c :
  Forall (readable (backing s)) idxs ->
  count_loop py_eq idxs x c s
    = (Ok (c + Z.of_nat (length (filter
                (fun p => holds_at py_eq (backing s) x p) idxs))), s).
Proof.
  intros H. revert c. induction H as [| p idxs Hp _ IH]; intros c; simpl.
  - unfold ret. f_equal. f_equal. lia.
  - unfold bind, list_get.
    destruct (list_getitem_readable _ _ Hp) as [y Hy]. rewrite Hy, IH.
    assert (Hh : holds_at py_eq (backing s) x p = py_eq y x).
    { unfold holds_at. by rewrite Hy. }
    f_equal. f_equal. rewrite filter_cons.
    destruct (decide _) as [Hd | Hd]; rewrite Hh in Hd;
      destruct (py_eq y x); simpl in *; first [lia | done].
Qed.

Lemma index_loop_spec s idxs x b :
  Forall (readable (backing s)) idxs ->
  index_loop py_eq py_format idxs x b s
    = (match list_find (fun p => holds_at py_eq (backing s) x p) idxs with
       | Some (_, p) => Ok (p - b)
       | None =>
           match py_format x with
           | Some _ => Raise ValueError
           | None => Raise TypeError
           end
       end, s).
Proof.
  induction 1 as [| p idxs Hp _ IH]; simpl.
  - by destruct (py_format x).
  - unfold bind, list_get.
    destruct (list_getitem_readable _ _ Hp) as [y Hy]. rewrite Hy.
    assert (Hh : holds_at py_eq (backing s) x p = py_eq y x).
    { unfold holds_at. by rewrite Hy. }
    destruct (decide _) as [Hd | Hd]; rewrite Hh in Hd;
      destruct (py_eq y x); simpl in *; try done.
    rewrite IH. by destruct (list_find _ idxs) as [[? ?]|].
Qed.

Lemma exists_filter_length {A} (P : A -> Prop) `{!forall a, Decision (P a)} (l : list A) :
  Exists P l <-> (1 <= length (filter P l))%nat.
Proof.
  induction l as [| a l IH]; simpl.
  - rewrite Exists_nil. lia.
  - rewrite Exists_cons, filter_cons.
    destruct (decide (P a)); simpl; [split; [lia | tauto] |].
    rewrite IH. tauto.
Qed.

(** The window can be scanned when its lower end is an index of the
    list; its upper end always is, after re-adjustment. *)
Lemma window_readable s :
  - backing_len s <= low (self (adjusted s)) ->
  Forall (readable (backing (adjusted s)))
    (range (low (self (adjusted s))) (high (self (adjusted s)))).
Proof.
  intros H. rewrite adjusted_backing. apply range_readable; [done |].
  apply adjusted_high_le.
Qed.

Lemma nonneg_low_adjusted s :
  0 <= low (self s) -> 0 <= low (self (adjusted s)).
Proof.
  intros H. destruct (adjusted_cases s) as [[_ ->] | [_ ->]]; simpl; lia.
Qed.

Lemma count_run s x :
  - backing_len s <= low (self (adjusted s)) ->
  count py_eq x s
    = (Ok (occurrences py_eq (backing s) x
             (low (self (adjusted s))) (high (self (adjusted s)))), adjusted s).
Proof.
  intros H. unfold count, bind. rewrite adjusted_run. unfold get_low, get_high.
  rewrite count_loop_spec by by apply window_readable.
  by rewrite adjusted_backing.
Qed.

Lemma contains_run s x :
  - backing_len s <= low (self (adjusted s)) ->
  contains py_eq x s
    = (Ok (bool_decide (Exists (fun p => holds_at py_eq (backing s) x p)
             (range (low (self (adjusted s))) (high (self (adjusted s)))))),
       adjusted s).
Proof.
  intros H. unfold contains, bind. rewrite adjusted_run. unfold get_low, get_high.
  rewrite contains_loop_spec by by apply window_readable.
  by rewrite adjusted_backing.
Qed.

(** A non-empty window whose lower end is below [-len(list)] cannot be
    scanned: the first read raises. *)
Lemma first_read_raises s :
  low (self (adjusted s)) < - backing_len s ->
  list_getitem (backing (adjusted s)) (low (self (adjusted s))) = Raise IndexError.
Proof.
  intros H. apply list_getitem_unreadable. unfold readable.
  rewrite adjusted_backing. unfold backing_len in H. lia.
Qed.

Lemma count_unreadable s x :
  low (self (adjusted s)) < high (self (adjusted s)) ->
  low (self (adjusted s)) < - backing_len s ->
  count py_eq x s = (Raise IndexError, adjusted s).
Proof.
  intros Hne H. unfold count, bind. rewrite adjusted_run. unfold get_low, get_high.
  rewrite range_cons by done. simpl. unfold bind, list_get.
  by rewrite first_read_raises.
Qed.

Lemma contains_unreadable s x :
  low (self (adjusted s)) < high (self (adjusted s)) ->
  low (self (adjusted s)) < - backing_len s ->
  contains py_eq x s = (Raise IndexError, adjusted s).
Proof.
  intros Hne H. unfold contains, bind. rewrite adjusted_run. unfold get_low, get_high.
  rewrite range_cons by done. simpl. unfold bind, list_get.
  by rewrite first_read_raises.
Qed.

Lemma count_empty s x :
  high (self (adjusted s)) <= low (self (adjusted s)) ->
  count py_eq x s = (Ok 0, adjusted s).
Proof.
  intros H. unfold count, bind. rewrite adjusted_run. unfold get_low, get_high.
  by rewrite range_nil.
Qed.

Lemma contains_empty s x :
  high (self (adjusted s)) <= low (self (adjusted s)) ->
  contains py_eq x s = (Ok false, adjusted s).
Proof.
  intros H. unfold contains, bind. rewrite adjusted_run. unfold get_low, get_high.
  by rewrite range_nil.
Qed.

(** *** Search *)

Lemma index_run s x start stop :
  let a := adjusted s in
  let b := search_begin a start in
  let e := search_end a stop in
  (~ bounds_ok a b e /\
   index py_eq py_format x start stop s = (Raise IndexError, a)) \/
  (bounds_ok a b e /\
   index py_eq py_format x start stop s
     = index_loop py_eq py_format (range b e) x b a).
Proof.
  intros a b e. unfold index, bind. rewrite adjusted_run. fold a.
  unfold get_low, get_high.
  change (match start with
          | Some st => if st <? 0 then high (self a) + st else low (self a) + st
          | None => low (self a)
          end) with b.
  change (match stop with
          | Some sp => if sp <? 0 then high (self a) + sp else low (self a) + sp
          | None => high (self a)
          end) with e.
  destruct (verify_bounds_run a b e) as [[Hok ->] | [Hno ->]]; [right | left]; done.
Qed.

(** What [index] returns when the range it searches can be read. *)
Lemma index_found s x start stop :
  let a := adjusted s in
  let b := search_begin a start in
  let e := search_end a stop in
  bounds_ok a b e ->
  - backing_len s <= b ->
  eval (index py_eq py_format x start stop) s
    = match list_find (fun p => holds_at py_eq (backing s) x p) (range b e) with
      | Some (_, p) => Ok (p - b)
      | None =>
          match py_format x with
          | Some _ => Raise ValueError
          | None => Raise TypeError
          end
      end.
Proof.
  intros a b e Hok Hb. unfold eval.
  destruct (index_run s x start stop) as [[Hno _] | [_ ->]]; [by destruct Hno |].
  fold a b e. rewrite index_loop_spec.
  - unfold a. by rewrite adjusted_backing.
  - unfold a. rewrite adjusted_backing. apply range_readable; [done |].
    destruct Hok as [_ [_ He]]. pose proof (adjusted_high_le s). fold a in H.
    unfold backing_len in *. lia.
Qed.

Lemma list_find_range (P : Z -> Prop) `{!forall p, Decision (P p)} b e i p :
  list_find P (range b e) = Some (i, p) ->
  p = b + Z.of_nat i /\ b <= p < e /\ P p /\
  forall q, b <= q < p -> ~ P q.
Proof.
  intros Hf. apply list_find_Some in Hf as (Hi & Hp & Hmin).
  unfold range in *. apply lookup_seqZ in Hi as [-> Hlt].
  split; [done |]. split; [lia |]. split; [done |].
  intros q Hq. apply (Hmin (Z.to_nat (q - b))); [| lia].
  apply lookup_seqZ. lia.
Qed.

Lemma list_find_range_None (P : Z -> Prop) `{!forall p, Decision (P p)} b e :
  list_find P (range b e) = None <-> forall q, b <= q < e -> ~ P q.
Proof.
  rewrite list_find_None, Forall_forall.
  split; intros Hall q Hq; apply Hall; by apply elem_of_range.
Qed.

(** [index] on a range that the list can be read at: the offset from the
    resolved start of the first index whose element equals [x]; an
    exception when there is none. *)
Lemma index_spec s x start stop :
  let a := adjusted s in
  let b := search_begin a start in
  let e := search_end a stop in
  let found p := holds_at py_eq (backing s) x p = true in
  bounds_ok a b e ->
  - backing_len s <= b ->
  (forall k,
     eval (index py_eq py_format x start stop) s = Ok k ->
     b <= b + k < e /\ found (b + k) /\ forall q, b <= q < b + k -> ~ found q) /\
  ((exists q, b <= q < e /\ found q) ->
     exists k, eval (index py_eq py_format x start stop) s = Ok k) /\
  ((forall q, b <= q < e -> ~ found q) ->
     eval (index py_eq py_format x start stop) s
       = match py_format x with
         | Some _ => Raise ValueError
         | None => Raise TypeError
         end).
Proof.
  intros a b e found Hok Hb.
  pose proof (index_found s x start stop Hok Hb) as Hrun. fold a b e in Hrun.
  rewrite Hrun.
  destruct (list_find _ (range b e)) as [[i p]|] eqn:Hf.
  - apply list_find_range in Hf as (Hp & Hin & Hfound & Hmin).
    split; [| split].
    + intros k [= <-]. replace (b + (p - b)) with p by lia.
      split; [done |]. split; [by apply Is_true_true |].
      intros q Hq Hfq. apply (Hmin q Hq). by apply Is_true_true.
    + intros _. by exists (p - b).
    + intros Hnone. destruct (Hnone p Hin). by apply Is_true_true.
  - pose proof (proj1 (list_find_range_None _ _ _) Hf) as Hnone. clear Hf.
    rename Hnone into Hf. simpl in Hf.
    split; [| split].
    + intros k. by destruct (py_format x).
    + intros (q & Hq & Hfq). destruct (Hf q Hq). by apply Is_true_true.
    + done.
Qed.

(** *** Coherence of the queries *)

Lemma contains_iff_count s x :
  eval (contains py_eq x) s = Ok true <->
  exists n, eval (count py_eq x) s = Ok n /\ 1 <= n.
Proof.
  unfold eval.
  destruct (Z.le_gt_cases (high (self (adjusted s))) (low (self (adjusted s)))) as [He | Hne].
  - rewrite contains_empty, count_empty by done. simpl.
    split; [done | intros (n & [= <-] & Hn); lia].
  - destruct (Z.le_gt_cases (- backing_len s) (low (self (adjusted s)))) as [Hr | Hu].
    + rewrite contains_run, count_run by done. simpl. unfold occurrences.
      split.
      * intros [= Hb]. apply bool_decide_eq_true in Hb.
        pose proof (proj1 (exists_filter_length _ _) Hb) as Hlen.
        eexists. split; [done | lia].
      * intros (n & [= <-] & Hn). f_equal. apply bool_decide_eq_true.
        apply (proj2 (exists_filter_length _ _)). lia.
    + rewrite contains_unreadable, count_unreadable by lia. simpl.
      split; [done | by intros (n & ? & _)].
Qed.

Lemma contains_then_index s x :
  eval (contains py_eq x) s = Ok true ->
  exists k, eval (index py_eq py_format x None None) s = Ok k.
Proof.
  unfold eval at 1.
  destruct (Z.le_gt_cases (high (self (adjusted s))) (low (self (adjusted s)))) as [He | Hne];
    [by rewrite contains_empty |].
  destruct (Z.le_gt_cases (- backing_len s) (low (self (adjusted s)))) as [Hr | Hu];
    [| by rewrite contains_unreadable by lia].
  rewrite contains_run by done. simpl. intros [= Hb].
  apply bool_decide_eq_true, Exists_exists in Hb as (q & Hq & Hfq).
  apply elem_of_range in Hq.
  assert (Hok : bounds_ok (adjusted s) (search_begin (adjusted s) None)
                  (search_end (adjusted s) None)).
  { unfold bounds_ok. simpl. lia. }
  destruct (index_spec s x None None Hok Hr) as (_ & Hex & _).
  apply Hex. exists q. split; [done | by apply Is_true_true].
Qed.

(** *** Windows with [low > high] *)

Lemma repr_empty s :
  high (self (adjusted s)) <= low (self (adjusted s)) ->
  repr py_repr s = (Ok "[]"%string, adjusted s).
Proof.
  intros H. unfold repr, bind. rewrite adjusted_run. unfold get_low, get_high.
  destruct (Z.leb_spec (high (self (adjusted s))) (low (self (adjusted s)))); [done | lia].
Qed.

Lemma getitem_empty s i :
  high (self (adjusted s)) <= low (self (adjusted s)) ->
  getitem i s = (Raise IndexError, adjusted s).
Proof.
  intros H. destruct (getitem_run s i) as [[Hok _] | [_ ->]]; [| done].
  unfold index_ok in Hok. lia.
Qed.

Lemma setitem_empty s i x :
  high (self (adjusted s)) <= low (self (adjusted s)) ->
  setitem i x s = (Raise IndexError, adjusted s).
Proof.
  intros H.
  destruct (setitem_run s i x) as [(p & Hok & _) | [(Hok & _) | (_ & ->)]];
    [| | done]; unfold index_ok in Hok; lia.
Qed.

Lemma inverted_adjusted s :
  high (self s) < low (self s) ->
  high (self (adjusted s)) <= low (self (adjusted s)).
Proof.
  intros H. destruct (adjusted_cases s) as [[_ ->] | [_ ->]]; simpl; lia.
Qed.

(** A slice built with [low > high] is empty for rendering, membership,
    counting and element access; its [len] is [high - low] after
    re-adjustment, which is negative unless the window has collapsed. *)
Lemma inverted_window s :
  high (self s) < low (self s) ->
  repr py_repr s = (Ok "[]"%string, adjusted s) /\
  (forall x, contains py_eq x s = (Ok false, adjusted s)) /\
  (forall x, count py_eq x s = (Ok 0, adjusted s)) /\
  (forall i, getitem i s = (Raise IndexError, adjusted s)) /\
  (forall i x, setitem i x s = (Raise IndexError, adjusted s)) /\
  (backing_len s <= low (self s) -> eval len s = Ok 0) /\
  (low (self s) < backing_len s ->
     exists n, eval len s = Ok n /\ n = Z.min (high (self s)) (backing_len s) - low (self s)
       /\ n < 0).
Proof.
  intros H. pose proof (inverted_adjusted s H) as Ha.
  split; [by apply repr_empty |].
  split; [intros; by apply contains_empty |].
  split; [intros; by apply count_empty |].
  split; [intros; by apply getitem_empty |].
  split; [intros; by apply setitem_empty |].
  unfold eval. rewrite len_run. simpl. split.
  - intros Hc. by rewrite (exec_readjust_collapse s Hc : adjusted s = _).
  - intros Hc. rewrite (exec_readjust_clip s Hc : adjusted s = _). simpl.
    eexists. split; [done |]. split; [done | lia].
Qed.

(** *** Sub-views of a window inside the list *)


(** For a view whose lower bound is not negative, an accepted sub-view
    has the resolved bounds themselves. *)
Lemma subview_bounds s i j v :
  0 <= low (self s) ->
  eval (getslice i j) s = Ok v ->
  v = mkSlice (zlist (self s)) (absolute (adjusted s) i) (absolute (adjusted s) j).
Proof.
  intros Hlow. unfold eval.
  destruct (getslice_run s i j) as [[Hok ->] | [_ ->]]; simpl; [| done].
  intros [= <-]. destruct Hok as [Hb He].
  destruct (index_ok_clipped s (absolute (adjusted s) i)) as (_ & Hl & _); [done |].
  unfold resolve.
  destruct (Z.ltb_spec (absolute (adjusted s) i) 0); [lia |].
  destruct (Z.ltb_spec (absolute (adjusted s) j) 0); [lia |]. done.
Qed.

(** For a view whose lower bound is not negative and non-negative
    [i], [j], [k], the accepted sub-view has the bounds
    [(low + i, low + j)] and reading it at [k] is reading the parent at
    [i + k]. *)
Lemma subview_composition s i j v :
  0 <= low (self s) -> 0 <= i -> 0 <= j ->
  eval (getslice i j) s = Ok v ->
  v = mkSlice (zlist (self s)) (low (self s) + i) (low (self s) + j) /\
  forall k y,
    0 <= k ->
    eval (getitem k) (mkState v (store s)) = Ok y ->
    eval (getitem (i + k)) s = Ok y.
Proof.
  intros Hlow Hi Hj. unfold eval.
  destruct (getslice_run s i j) as [[Hok ->] | [_ ->]]; simpl; [| done].
  intros [= <-].
  assert (Hai : absolute (adjusted s) i = low (self (adjusted s)) + i).
  { unfold absolute. destruct (Z.ltb_spec i 0); [lia | done]. }
  assert (Haj : absolute (adjusted s) j = low (self (adjusted s)) + j).
  { unfold absolute. destruct (Z.ltb_spec j 0); [lia | done]. }
  rewrite Hai, Haj in *. destruct Hok as [Hb He].
  destruct (index_ok_clipped s (low (self (adjusted s)) + i)) as (Hadj & Hl & Hn);
    [done |].
  rewrite Hl in *. unfold resolve.
  destruct (Z.ltb_spec (low (self s) + i) 0); [lia |].
  destruct (Z.ltb_spec (low (self s) + j) 0); [lia |].
  split; [done |]. intros k y Hk.
  set (t := mkState (mkSlice (zlist (self s)) (low (self s) + i) (low (self s) + j))
              (store s)).
  assert (Hbt : backing t = backing s) by reflexivity.
  assert (Hlt : backing_len t = backing_len s) by reflexivity.
  assert (Hat : adjusted t = clipped t).
  { apply exec_readjust_clip. rewrite Hlt. simpl. lia. }
  pose proof (adjusted_high_le s) as Hhi.
  destruct (getitem_run t k) as [[Hokt ->] | [_ ->]]; simpl; [| done].
  rewrite Hat in Hokt |- *. unfold index_ok, absolute in Hokt |- *. simpl in *.
  rewrite Hlt in Hokt.
  destruct (Z.ltb_spec k 0); [lia |]. rewrite Hbt.
  intros Hy.
  destruct (getitem_run s (i + k)) as [[_ ->] | [Hno _]]; simpl.
  - unfold absolute. destruct (Z.ltb_spec (i + k) 0); [lia |].
    rewrite Hl. by replace (low (self s) + (i + k)) with (low (self s) + i + k) by lia.
  - destruct Hno. unfold index_ok, absolute.
    destruct (Z.ltb_spec (i + k) 0); lia.
Qed.

(** ** The view as a list *)

(** When the lower bound is not negative, the re-adjusted window lies
    inside the list. *)
Lemma adjusted_inside s :
  0 <= low (self s) ->
  0 <= low (self (adjusted s)) /\ high (self (adjusted s)) <= backing_len s.
Proof.
  intros H. split; [by apply nonneg_low_adjusted | apply adjusted_high_le].
Qed.

Lemma window_lookup s (k : nat) :
  0 <= low (self s) ->
  window s !! k =
    if decide (Z.of_nat k < high (self (adjusted s)) - low (self (adjusted s)))
    then backing s !! (Z.to_nat (low (self (adjusted s)) + Z.of_nat k))
    else None.
Proof.
  intros H. destruct (adjusted_inside s H) as [Hlo Hhi].
  unfold window. rewrite lookup_take, lookup_drop.
  destruct (decide (k < Z.to_nat _)%nat) as [Hk | Hk];
    destruct (decide (Z.of_nat k < _)) as [Hk' | Hk']; try lia; [| done].
  f_equal. lia.
Qed.

Lemma window_length s :
  0 <= low (self s) ->
  length (window s)
    = Z.to_nat (high (self (adjusted s)) - low (self (adjusted s))).
Proof.
  intros H. destruct (adjusted_inside s H) as [Hlo Hhi].
  unfold window. rewrite length_take, length_drop.
  unfold backing_len in Hhi. lia.
Qed.

(** X1. A view whose lower bound is not negative is indexed like the
    Python list [l[low:high]]: for [k >= 0], [v[k]] is the element of the
    window at position [k], and an [IndexError] when the window has no
    such position. *)
Theorem X1_getitem_window s k :
  0 <= low (self s) -> 0 <= k ->
  eval (getitem k) s =
    match window s !! Z.to_nat k with
    | Some y => Ok y
    | None => Raise IndexError
    end.
Proof.
  intros Hlow Hk. destruct (adjusted_inside s Hlow) as [Hlo Hhi].
  rewrite window_lookup by done. rewrite Z2Nat.id by done.
  assert (Habs : absolute (adjusted s) k = low (self (adjusted s)) + k).
  { unfold absolute. destruct (Z.ltb_spec k 0); [lia | done]. }
  unfold eval.
  destruct (getitem_run s k) as [[Hok ->] | [Hno ->]]; simpl; rewrite Habs in *.
  - unfold index_ok in Hok.
    destruct (decide _) as [_ | Hd]; [| lia].
    destruct (list_getitem_nonneg (backing s) (low (self (adjusted s)) + k))
      as (y & Hy & ->); [unfold backing_len in Hhi; lia |].
    by rewrite Hy.
  - unfold index_ok in Hno. destruct (decide _) as [Hd | _]; [lia | done].
Qed.

(** X2. [len(v)] is the number of elements of the window, for a view
    with [0 <= low <= high]. *)
Theorem X2_len_window s :
  0 <= low (self s) -> low (self s) <= high (self s) ->
  eval len s = Ok (Z.of_nat (length (window s))).
Proof.
  intros Hlow Hle. unfold eval. rewrite len_run. simpl.
  rewrite window_length by done. f_equal.
  destruct (adjusted_cases s) as [[_ ->] | [Hn ->]]; simpl; lia.
Qed.

(** X3. A negative index counts from the end of the window: for
    [-len(v) <= i < 0], [v[i]] is [v[len(v) + i]] and [v[i] = x] is
    [v[len(v) + i] = x]; below [-len(v)] both raise [IndexError]. *)
Theorem X3_negative_index s i n :
  eval len s = Ok n -> i < 0 ->
  (0 <= n + i ->
     getitem i s = getitem (n + i) s /\
     forall x, setitem i x s = setitem (n + i) x s) /\
  (n + i < 0 ->
     eval (getitem i) s = Raise IndexError /\
     forall x, eval (setitem i x) s = Raise IndexError).
Proof.
  unfold eval. rewrite len_run. simpl. intros [= <-] Hi.
  set (a := adjusted s).
  assert (Hneg : absolute a i = high (self a) + i).
  { unfold absolute. destruct (Z.ltb_spec i 0); [done | lia]. }
  split.
  - intros Hge.
    assert (Hpos : absolute a (high (self a) - low (self a) + i) = high (self a) + i).
    { unfold absolute. destruct (Z.ltb_spec (high (self a) - low (self a) + i) 0); lia. }
    split.
    + unfold getitem, bind. rewrite adjusted_run. fold a. unfold get_low, get_high.
      fold (absolute a i) (absolute a (high (self a) - low (self a) + i)).
      by rewrite Hneg, Hpos.
    + intros x. unfold setitem, bind. rewrite adjusted_run. fold a.
      unfold get_low, get_high.
      fold (absolute a i) (absolute a (high (self a) - low (self a) + i)).
      by rewrite Hneg, Hpos.
  - intros Hlt. split.
    + destruct (getitem_run s i) as [[Hok _] | [_ ->]]; [| done].
      fold a in Hok. unfold index_ok in Hok. lia.
    + intros x.
      destruct (setitem_run s i x) as [(p & Hok & _) | [(Hok & _) | (_ & ->)]];
        [| | done]; fold a in Hok; unfold index_ok in Hok; lia.
Qed.

Lemma window_segment s :
  window s
    = segment (backing s) (low (self (adjusted s))) (high (self (adjusted s))).
Proof. reflexivity. Qed.

(** Reading the list along [range(b, e)] gives the elements of
    [l[b:e]]. *)
Lemma reads_segment (l : list T) b e :
  0 <= b -> e <= Z.of_nat (length l) ->
  Forall2 (fun p y => list_getitem l p = Ok y) (range b e) (segment l b e).
Proof.
  intros Hb He. apply Forall2_same_length_lookup_2.
  - unfold range, segment. rewrite length_seqZ, length_take, length_drop. lia.
  - intros i p y Hp Hy. unfold range in Hp. apply lookup_seqZ in Hp as [-> Hi].
    unfold segment in Hy. rewrite lookup_take, lookup_drop in Hy.
    destruct (decide _); [| done].
    destruct (list_getitem_nonneg l (b + Z.of_nat i)) as (y' & Hy' & ->); [lia |].
    replace (Z.to_nat (b + Z.of_nat i)) with (Z.to_nat b + i)%nat in Hy' by lia.
    congruence.
Qed.

Lemma contains_loop_elems s idxs ys x :
  Forall2 (fun p y => list_getitem (backing s) p = Ok y) idxs ys ->
  contains_loop py_eq idxs x s = (Ok (existsb (fun y => py_eq y x) ys), s).
Proof.
  induction 1 as [| p y idxs ys Hy _ IH]; [done |].
  simpl. unfold bind, list_get. rewrite Hy.
  destruct (py_eq y x); [done | exact IH].
Qed.

Lemma count_loop_elems s idxs ys x c :
  Forall2 (fun p y => list_getitem (backing s) p = Ok y) idxs ys ->
  count_loop py_eq idxs x c s
    = (Ok (c + Z.of_nat (length (filter (fun y => py_eq y x) ys))), s).
Proof.
  intros H. revert c. induction H as [| p y idxs ys Hy _ IH]; intros c; simpl.
  - unfold ret. f_equal. f_equal. lia.
  - unfold bind, list_get. rewrite Hy, IH. f_equal. f_equal.
    rewrite filter_cons.
    destruct (decide _) as [Hd | Hd]; destruct (py_eq y x); simpl in *;
      first [lia | done].
Qed.

Lemma index_loop_elems s ys x b b0 n :
  Forall2 (fun p y => list_getitem (backing s) p = Ok y) (seqZ b0 n) ys ->
  index_loop py_eq py_format (seqZ b0 n) x b s
    = (match list_find (fun y => py_eq y x) ys with
       | Some (k, _) => Ok (b0 + Z.of_nat k - b)
       | None =>
           match py_format x with
           | Some _ => Raise ValueError
           | None => Raise TypeError
           end
       end, s).
Proof.
  revert b0 n. induction ys as [| y ys IH]; intros b0 n H.
  - apply Forall2_nil_inv_r in H. rewrite H. simpl. by destruct (py_format x).
  - destruct (Z.le_gt_cases n 0) as [Hn | Hn].
    { rewrite seqZ_nil in H by done. inversion H. }
    rewrite seqZ_cons in H |- * by done.
    apply Forall2_cons_1 in H as [Hy Hrest].
    simpl. unfold bind, list_get. rewrite Hy.
    destruct (decide _) as [Hd | Hd]; destruct (py_eq y x); simpl in *; try done.
    + unfold ret. f_equal. f_equal. lia.
    + rewrite (IH _ _ Hrest).
      destruct (list_find _ ys) as [[k z]|]; simpl; [| done].
      f_equal. f_equal. lia.
Qed.

Lemma string_append_assoc (a b c : string) : (a +:+ b) +:+ c = a +:+ b +:+ c.
Proof.
  induction a as [| ch a IH]; [done |].
  change (String ch ((a +:+ b) +:+ c) = String ch (a +:+ b +:+ c)). by f_equal.
Qed.

Lemma repr_loop_elems s idxs ys pre r0 :
  Forall2 (fun p y => list_getitem (backing s) p = Ok y) idxs ys ->
  repr_loop py_repr idxs (pre +:+ r0) s
    = (Ok (pre +:+ String.concat ", " (r0 :: (py_repr <$> ys))), s).
Proof.
  intros H. revert pre r0. induction H as [| p y idxs ys Hy _ IH]; intros pre r0.
  - done.
  - simpl repr_loop. unfold bind, list_get. rewrite Hy.
    rewrite <- (string_append_assoc (pre +:+ r0) ", " (py_repr y)).
    rewrite IH. f_equal. f_equal.
    rewrite !string_append_assoc. reflexivity.
Qed.

Lemma segment_cons (l : list T) b e :
  0 <= b < e -> e <= Z.of_nat (length l) ->
  exists y, list_getitem l b = Ok y /\ segment l b e = y :: segment l (b + 1) e.
Proof.
  intros Hb He.
  destruct (list_getitem_nonneg l b) as (y & Hy & Hget); [lia |].
  exists y. split; [done |]. unfold segment.
  replace (Z.to_nat (e - b)) with (S (Z.to_nat (e - (b + 1)))) by lia.
  replace (Z.to_nat (b + 1)) with (S (Z.to_nat b)) by lia.
  by rewrite (drop_S _ _ _ Hy).
Qed.

Lemma reads_window s :
  0 <= low (self s) ->
  Forall2 (fun p y => list_getitem (backing (adjusted s)) p = Ok y)
    (range (low (self (adjusted s))) (high (self (adjusted s)))) (window s).
Proof.
  intros H. destruct (adjusted_inside s H) as [Hlo Hhi].
  rewrite adjusted_backing, window_segment. by apply reads_segment.
Qed.

(** X4. On a view whose lower bound is not negative, [count(x)] is the
    number of elements of the window equal to [x] and [x in v] tells
    whether there is one. *)
Theorem X4_count_contains_window s x :
  0 <= low (self s) ->
  eval (count py_eq x) s
    = Ok (Z.of_nat (length (filter (fun y => py_eq y x) (window s)))) /\
  eval (contains py_eq x) s = Ok (existsb (fun y => py_eq y x) (window s)).
Proof.
  intros H. pose proof (reads_window s H) as Hr. unfold eval. split.
  - unfold count, bind. rewrite adjusted_run. unfold get_low, get_high.
    by rewrite (count_loop_elems _ _ _ _ _ Hr).
  - unfold contains, bind. rewrite adjusted_run. unfold get_low, get_high.
    by rewrite (contains_loop_elems _ _ _ _ Hr).
Qed.

(** X5. On a view whose lower bound is not negative, [repr(v)] and
    [str(v)] are the text of the Python list of the window: the [repr] of
    its elements, separated by a comma and a space, between brackets; an
    empty window gives ['[]']. *)
Theorem X5_repr_window s :
  0 <= low (self s) ->
  eval (repr py_repr) s = Ok (render (py_repr <$> window s)) /\
  eval (str py_repr) s = Ok (render (py_repr <$> window s)).
Proof.
  intros H. destruct (adjusted_inside s H) as [Hlo Hhi].
  assert (Hrepr : eval (repr py_repr) s = Ok (render (py_repr <$> window s)));
    [| by split].
  unfold eval, repr, bind. rewrite adjusted_run. unfold get_low, get_high.
  rewrite window_segment.
  set (a := adjusted s) in *. set (lo := low (self a)) in *.
  set (hi := high (self a)) in *.
  destruct (Z.leb_spec hi lo) as [He | Hne].
  - unfold segment. replace (Z.to_nat (hi - lo)) with 0%nat by lia. done.
  - destruct (segment_cons (backing s) lo hi) as (y & Hy & ->);
      [lia | unfold backing_len in Hhi; lia |].
    unfold list_get at 1. unfold a at 1. rewrite adjusted_backing, Hy.
    rewrite (repr_loop_elems a _ (segment (backing s) (lo + 1) hi)).
    + unfold ret, render. rewrite fmap_cons. simpl fst.
      by rewrite string_append_assoc.
    + unfold a. rewrite adjusted_backing. apply reads_segment; [lia |].
      unfold backing_len in Hhi. lia.
Qed.

(** X6. On a view whose lower bound is not negative, a search whose
    resolved range [(begin, end)] passes the validation returns the
    position, in [l[begin:end]], of the first element equal to [x]; when
    there is none it raises [ValueError], or the [TypeError] of the
    message when [x] cannot be formatted. *)
Theorem X6_index_segment s x start stop :
  0 <= low (self s) ->
  low (self (adjusted s)) <= search_begin (adjusted s) start < high (self (adjusted s)) ->
  low (self (adjusted s)) <= search_end (adjusted s) stop <= high (self (adjusted s)) ->
  eval (index py_eq py_format x start stop) s
    = match list_find (fun y => py_eq y x)
              (segment (backing s) (search_begin (adjusted s) start)
                 (search_end (adjusted s) stop)) with
      | Some (k, _) => Ok (Z.of_nat k)
      | None =>
          match py_format x with
          | Some _ => Raise ValueError
          | None => Raise TypeError
          end
      end.
Proof.
  intros H Hb He. destruct (adjusted_inside s H) as [Hlo Hhi].
  unfold eval.
  destruct (index_run s x start stop) as [[Hno _] | [_ ->]];
    [destruct Hno; by split |].
  unfold range.
  rewrite (index_loop_elems (adjusted s)
             (segment (backing s) (search_begin (adjusted s) start)
                (search_end (adjusted s) stop))).
  - simpl. destruct (list_find _ _) as [[k z]|]; [| done].
    f_equal. lia.
  - rewrite adjusted_backing. apply reads_segment; [lia |].
    unfold backing_len in Hhi. lia.
Qed.

(** ** Writes seen through the views *)

(** Re-adjustment looks at the receiver's fields and at the length of its
    list only. *)
Lemma adjusted_self_ext s (t : @state T) :
  self s = self t -> backing_len s = backing_len t ->
  self (adjusted s) = self (adjusted t).
Proof.
  intros Hs Hl. unfold adjusted, exec. rewrite !readjust_bounds_run.
  unfold collapsed, clipped. rewrite Hs, Hl.
  by destruct (backing_len t <=? low (self t)).
Qed.

Lemma adjusted_self_idem s (t : @state T) :
  self t = self (adjusted s) -> backing_len t = backing_len s ->
  self (adjusted t) = self (adjusted s).
Proof.
  intros Hs Hl.
  transitivity (self (adjusted (adjusted s))); [| by rewrite adjusted_idem].
  apply adjusted_self_ext; [done |]. by rewrite adjusted_backing_len.
Qed.

(** The state that a returning [setitem] leaves. *)
Lemma setitem_ok s i x :
  eval (setitem i x) s = Ok tt ->
  exists p,
    index_ok (adjusted s) (absolute (adjusted s) i) /\
    list_position (backing s) (absolute (adjusted s) i) = Some p /\
    exec (setitem i x) s
      = mkState (self (adjusted s))
          (<[zlist (self s) := <[p := x]> (backing s)]> (store s)).
Proof.
  unfold eval, exec.
  destruct (setitem_run s i x) as [(p & Hok & Hp & ->) | [(_ & _ & ->) | (_ & ->)]];
    simpl; [| done | done].
  intros _. by exists p.
Qed.

(** X7. Read after write: when [v[i] = x] returns, [v[i]] then returns
    [x], for a negative index as for a non-negative one, and [len(v)] is
    what it was. *)
Theorem X7_read_after_write s i x :
  eval (setitem i x) s = Ok tt ->
  eval (getitem i) (exec (setitem i x) s) = Ok x /\
  eval len (exec (setitem i x) s) = eval len s.
Proof.
  intros H. destruct (setitem_ok s i x H) as (p & Hok & Hp & ->).
  set (t := mkState (self (adjusted s)) _).
  assert (Hbt : backing t = <[p := x]> (backing s)).
  { unfold backing, t. simpl. by rewrite adjusted_zlist, lookup_total_insert_eq. }
  assert (Hlt : backing_len t = backing_len s).
  { unfold backing_len. by rewrite Hbt, length_insert. }
  assert (Hself : self (adjusted t) = self (adjusted s)).
  { by apply adjusted_self_idem. }
  assert (Habs : absolute (adjusted t) i = absolute (adjusted s) i).
  { unfold absolute. by rewrite Hself. }
  split.
  - unfold eval. destruct (getitem_run t i) as [[_ ->] | [Hno _]]; simpl.
    + rewrite Habs, Hbt. by apply list_getitem_insert.
    + destruct Hno. unfold index_ok in *. by rewrite Habs, Hself.
  - unfold eval. rewrite !len_run. simpl. by rewrite Hself.
Qed.

(** The window of a slice after an element of its list has been
    replaced. *)
Lemma window_insert s (p : nat) x :
  0 <= low (self s) ->
  let lo := Z.to_nat (low (self (adjusted s))) in
  window (mkState (self s) (<[zlist (self s) := <[p := x]> (backing s)]> (store s)))
    = if decide (lo <= p)%nat then <[(p - lo)%nat := x]> (window s) else window s.
Proof.
  intros Hlow lo.
  set (t := mkState (self s) _).
  assert (Hbt : backing t = <[p := x]> (backing s)).
  { unfold backing, t. simpl. by rewrite lookup_total_insert_eq. }
  assert (Hself : self (adjusted t) = self (adjusted s)).
  { apply adjusted_self_ext; [done |]. unfold backing_len. by rewrite Hbt, length_insert. }
  unfold window. rewrite Hself, Hbt. fold lo.
  rewrite drop_insert. destruct (decide (lo <= p)%nat); [| done].
  rewrite take_insert. destruct (decide _); [done |].
  rewrite list_insert_ge; [done |]. rewrite length_take. lia.
Qed.

(** X8. On a view whose lower bound is not negative, [v[k] = x] with
    [k >= 0], when it returns, replaces the element at position [k] of
    the window and nothing else in it: the view is assigned to like the
    list [l[low:high]]. *)
Theorem X8_setitem_window s k x :
  0 <= low (self s) -> 0 <= k ->
  eval (setitem k x) s = Ok tt ->
  window (exec (setitem k x) s) = <[Z.to_nat k := x]> (window s).
Proof.
  intros Hlow Hk H. destruct (adjusted_inside s Hlow) as [Hlo Hhi].
  destruct (setitem_ok s k x H) as (p & Hok & Hp & ->).
  assert (Habs : absolute (adjusted s) k = low (self (adjusted s)) + k).
  { unfold absolute. destruct (Z.ltb_spec k 0); [lia | done]. }
  rewrite Habs in *. unfold index_ok in Hok.
  rewrite list_position_nonneg in Hp by (unfold backing_len in Hhi; lia).
  injection Hp as <-.
  set (t := mkState (self (adjusted s)) _).
  assert (Hbt : backing t = <[Z.to_nat (low (self (adjusted s)) + k) := x]> (backing s)).
  { unfold backing, t. simpl. by rewrite adjusted_zlist, lookup_total_insert_eq. }
  assert (Hself : self (adjusted t) = self (adjusted s)).
  { apply adjusted_self_idem; [done |]. unfold backing_len. by rewrite Hbt, length_insert. }
  unfold window. rewrite Hself, Hbt.
  rewrite drop_insert_ge by lia. rewrite take_insert_lt by lia.
  f_equal. lia.
Qed.

(** X9. A write through one slice is seen through every slice: after
    [v[k] = x] (with [k >= 0] and non-negative lower bounds), the window
    of a slice [w] of the same list has [x] at the position shifted by
    the difference of the lower bounds, when it has that position, and is
    otherwise as before; the window of a slice of another list is as
    before. *)
Theorem X9_write_seen_by_slices s k x w :
  0 <= low (self s) -> 0 <= k -> 0 <= low w ->
  eval (setitem k x) s = Ok tt ->
  (zlist w = zlist (self s) ->
     window (mkState w (store (exec (setitem k x) s)))
       = if decide (low (self (adjusted (mkState w (store s)))) <= low (self s) + k)
         then <[Z.to_nat (low (self s) + k
                          - low (self (adjusted (mkState w (store s))))) := x]>
                (window (mkState w (store s)))
         else window (mkState w (store s))) /\
  (zlist w <> zlist (self s) ->
     window (mkState w (store (exec (setitem k x) s))) = window (mkState w (store s))).
Proof.
  intros Hlow Hk Hw H. destruct (adjusted_inside s Hlow) as [Hlo Hhi].
  destruct (setitem_ok s k x H) as (p & Hok & Hp & ->). simpl.
  destruct (index_ok_clipped s _ Hok) as (_ & Hl & _).
  assert (Habs : absolute (adjusted s) k = low (self s) + k).
  { unfold absolute. rewrite Hl. destruct (Z.ltb_spec k 0); [lia | done]. }
  rewrite Habs in *. unfold index_ok in Hok. rewrite Hl in Hok.
  rewrite list_position_nonneg in Hp by (unfold backing_len in Hhi; lia).
  injection Hp as <-.
  set (u := mkState w (store s)).
  split.
  - intros Hz.
    assert (Hbu : backing u = backing s) by (unfold backing, u; simpl; by rewrite Hz).
    pose proof (window_insert u (Z.to_nat (low (self s) + k)) x Hw) as Hi.
    simpl in Hi. rewrite Hbu, Hz in Hi. rewrite Hi.
    pose proof (nonneg_low_adjusted u Hw) as Hu.
    destruct (decide (_ <= _)%nat) as [Hd | Hd];
      destruct (decide (_ <= _)) as [Hd' | Hd']; try lia; [| done].
    f_equal. lia.
  - intros Hz.
    set (t := mkState w _).
    assert (Hbt : backing t = backing u).
    { unfold backing, t, u. simpl. by rewrite lookup_total_insert_ne. }
    assert (Hself : self (adjusted t) = self (adjusted u)).
    { apply adjusted_self_ext; [done |]. unfold backing_len. by rewrite Hbt. }
    unfold window. by rewrite Hself, Hbt.
Qed.

(** ** Sub-views as slices of the window *)

(** X10. On a view whose lower bound is not negative, an accepted
    sub-view [v[i:j]] with [0 <= i] and [0 <= j] shows the slice [[i:j]]
    of what the view shows. *)
Theorem X10_subview_window s i j v :
  0 <= low (self s) -> 0 <= i -> 0 <= j ->
  eval (getslice i j) s = Ok v ->
  window (mkState v (store s)) = segment (window s) i j.
Proof.
  intros Hlow Hi Hj. destruct (adjusted_inside s Hlow) as [Hlo Hhi].
  unfold eval.
  destruct (getslice_run s i j) as [[Hok ->] | [_ ->]]; simpl; [| done].
  intros [= <-].
  assert (Hai : absolute (adjusted s) i = low (self (adjusted s)) + i).
  { unfold absolute. destruct (Z.ltb_spec i 0); [lia | done]. }
  assert (Haj : absolute (adjusted s) j = low (self (adjusted s)) + j).
  { unfold absolute. destruct (Z.ltb_spec j 0); [lia | done]. }
  rewrite Hai, Haj in *. destruct Hok as [Hb He].
  set (lo := low (self (adjusted s))) in *.
  set (hi := high (self (adjusted s))) in *.
  unfold resolve.
  destruct (Z.ltb_spec (lo + i) 0); [lia |].
  destruct (Z.ltb_spec (lo + j) 0); [lia |].
  set (t := mkState (mkSlice (zlist (self s)) (lo + i) (lo + j)) (store s)).
  assert (Hbt : backing t = backing s) by reflexivity.
  assert (Hat : adjusted t = clipped t).
  { apply exec_readjust_clip. simpl.
    change (backing_len t) with (backing_len s). lia. }
  unfold window at 1. rewrite Hat, Hbt. simpl.
  change (backing_len t) with (backing_len s).
  rewrite window_segment. fold lo hi. unfold segment.
  apply list_eq. intros q.
  rewrite !lookup_take, !lookup_drop, lookup_take, lookup_drop.
  repeat destruct (decide _); try lia; try done.
  f_equal. lia.
Qed.

(** X11. Writing through a sub-view is writing through its parent at the
    shifted index: for a view whose lower bound is not negative and
    non-negative [i], [j], [k], when [v[i:j][k] = x] returns, so does
    [v[i + k] = x], and they leave the same store. *)
Theorem X11_subview_setitem s i j k x v :
  0 <= low (self s) -> 0 <= i -> 0 <= j -> 0 <= k ->
  eval (getslice i j) s = Ok v ->
  eval (setitem k x) (mkState v (store s)) = Ok tt ->
  eval (setitem (i + k) x) s = Ok tt /\
  store (exec (setitem (i + k) x) s) = store (exec (setitem k x) (mkState v (store s))).
Proof.
  intros Hlow Hi Hj Hk Hv Hset.
  destruct (subview_composition s i j v Hlow Hi Hj Hv) as [-> _].
  destruct (adjusted_inside s Hlow) as [Hlo Hhi].
  set (t := mkState (mkSlice (zlist (self s)) (low (self s) + i) (low (self s) + j))
              (store s)) in *.
  destruct (setitem_ok t k x Hset) as (p & Hok & Hp & Ht). rewrite Ht. simpl.
  destruct (index_ok_clipped t _ Hok) as (Hat & Hlt & Hnt).
  change (backing_len t) with (backing_len s) in Hnt.
  change (backing t) with (backing s) in Hp.
  assert (Hak : absolute (adjusted t) k = low (self s) + i + k).
  { unfold absolute. rewrite Hlt. simpl. destruct (Z.ltb_spec k 0); [lia | done]. }
  rewrite Hak in *. unfold index_ok in Hok. rewrite Hat in Hok. simpl in Hok.
  unfold eval in Hv.
  destruct (getslice_run s i j) as [[Hb _] | [_ Hr]];
    [| rewrite Hr in Hv; discriminate].
  destruct Hb as [Hb He].
  assert (Hai : absolute (adjusted s) i = low (self (adjusted s)) + i).
  { unfold absolute. destruct (Z.ltb_spec i 0); [lia | done]. }
  assert (Haj : absolute (adjusted s) j = low (self (adjusted s)) + j).
  { unfold absolute. destruct (Z.ltb_spec j 0); [lia | done]. }
  rewrite Hai in Hb. rewrite Haj in He.
  destruct (index_ok_clipped s (low (self (adjusted s)) + i)) as (_ & Hl & _); [done |].
  rewrite Hl in *.
  assert (Haik : absolute (adjusted s) (i + k) = low (self s) + i + k).
  { unfold absolute. rewrite Hl. destruct (Z.ltb_spec (i + k) 0); lia. }
  unfold eval, exec.
  destruct (setitem_run s (i + k) x) as [(q & Hokq & Hq & ->) | [(_ & Hq & _) | (Hno & _)]];
    simpl; rewrite Haik in *.
  - split; [done |]. rewrite Hq in Hp. by injection Hp as <-.
  - congruence.
  - destruct Hno. unfold index_ok. rewrite Hl. lia.
Qed.

(** ** Growing and shrinking lists *)

(** X12. Appending to the list does not change what a slice shows: for a
    slice with [0 <= low] and [high <= len(l)], the window over
    [l + ext] is the window over [l]. *)
Theorem X12_append_keeps_window v h (l ext : list T) :
  0 <= low v -> high v <= Z.of_nat (length l) ->
  window (mkState v (<[zlist v := l ++ ext]> h))
    = window (mkState v (<[zlist v := l]> h)).
Proof.
  intros Hlow Hhigh.
  set (s1 := mkState v (<[zlist v := l]> h)).
  set (s2 := mkState v (<[zlist v := l ++ ext]> h)).
  assert (Hb1 : backing s1 = l).
  { unfold backing, s1. simpl. by rewrite lookup_total_insert_eq. }
  assert (Hb2 : backing s2 = l ++ ext).
  { unfold backing, s2. simpl. by rewrite lookup_total_insert_eq. }
  assert (Hl1 : backing_len s1 = Z.of_nat (length l)).
  { unfold backing_len. by rewrite Hb1. }
  assert (Hl2 : backing_len s2 = Z.of_nat (length l) + Z.of_nat (length ext)).
  { unfold backing_len. rewrite Hb2, length_app. lia. }
  apply list_eq. intros k. rewrite !window_lookup by done.
  rewrite Hb1, Hb2.
  destruct (adjusted_cases s1) as [[H1 ->] | [H1 ->]];
    destruct (adjusted_cases s2) as [[H2 ->] | [H2 ->]]; simpl in *;
    rewrite ?Hl1, ?Hl2 in *;
    repeat destruct (decide _); try lia; try done.
  apply lookup_app_l. lia.
Qed.

(** X13. A collapse is permanent: once a method has run while the list
    was no longer than the lower bound, the view is empty whatever the
    list becomes afterwards, its [len] is 0 and every element access
    raises [IndexError]. *)
Theorem X13_collapse_is_permanent s h2 :
  backing_len s <= low (self s) ->
  eval len (mkState (self (exec len s)) h2) = Ok 0 /\
  window (mkState (self (exec len s)) h2) = [] /\
  (forall i, eval (getitem i) (mkState (self (exec len s)) h2) = Raise IndexError) /\
  (forall i x, eval (setitem i x) (mkState (self (exec len s)) h2) = Raise IndexError).
Proof.
  intros H. rewrite len_exec, (exec_readjust_collapse s H : adjusted s = _).
  simpl. set (t := mkState _ h2).
  assert (Hlo : low (self (adjusted t)) = 0 /\ high (self (adjusted t)) = 0).
  { destruct (adjusted_cases t) as [[_ ->] | [Hn ->]]; simpl in *; [done |].
    unfold backing_len in *. lia. }
  destruct Hlo as [Hlo Hhi].
  split; [unfold eval; rewrite len_run; simpl; by rewrite Hlo, Hhi |].
  split; [unfold window; by rewrite Hlo, Hhi |].
  split.
  - intros i. unfold eval. rewrite getitem_empty; [done | lia].
  - intros i x. unfold eval. rewrite setitem_empty; [done | lia].
Qed.

(** ** Empty windows *)

(** X17. A view with [high <= low] has no sub-view and cannot be
    searched: [v[i:j]] raises [IndexError] for all [i] and [j], and
    [index] raises [IndexError], not [ValueError], for every value and
    every [start] and [stop]. *)
Theorem X17_empty_window_raises s :
  high (self s) <= low (self s) ->
  (forall i j, eval (getslice i j) s = Raise IndexError) /\
  (forall x start stop,
     eval (index py_eq py_format x start stop) s = Raise IndexError).
Proof.
  intros H.
  assert (Ha : high (self (adjusted s)) <= low (self (adjusted s))).
  { destruct (adjusted_cases s) as [[_ ->] | [_ ->]]; simpl; lia. }
  split.
  - intros i j. unfold eval.
    destruct (getslice_run s i j) as [[[Hb _] _] | [_ ->]]; [lia | done].
  - intros x start stop. unfold eval.
    destruct (index_run s x start stop) as [[_ ->] | [[Hb _] _]]; [done | lia].
Qed.

(** ** Lazy re-adjustment *)

Lemma bind_readjust_adjusted {A} (k : unit -> @M T A) s :
  bind readjust_bounds k (adjusted s) = bind readjust_bounds k s.
Proof. unfold bind. by rewrite !adjusted_run, adjusted_idem. Qed.

(** X19. Queries are repeatable: every method but a returning [setitem]
    leaves the re-adjusted receiver and the store as it found it, and
    every method returns on that state what it returns on the original
    one. *)
Theorem X19_queries_repeatable s :
  (exec len s = adjusted s /\
   (forall i, exec (getitem i) s = adjusted s) /\
   (forall i j, exec (getslice i j) s = adjusted s) /\
   (forall x, exec (contains py_eq x) s = adjusted s) /\
   (forall x, exec (count py_eq x) s = adjusted s) /\
   (forall x start stop, exec (index py_eq py_format x start stop) s = adjusted s) /\
   exec (repr py_repr) s = adjusted s /\
   (forall i x e, eval (setitem i x) s = Raise e -> exec (setitem i x) s = adjusted s)) /\
  (len (adjusted s) = len s /\
   (forall i, getitem i (adjusted s) = getitem i s) /\
   (forall i j, getslice i j (adjusted s) = getslice i j s) /\
   (forall x, contains py_eq x (adjusted s) = contains py_eq x s) /\
   (forall x, count py_eq x (adjusted s) = count py_eq x s) /\
   (forall x start stop,
      index py_eq py_format x start stop (adjusted s)
        = index py_eq py_format x start stop s) /\
   repr py_repr (adjusted s) = repr py_repr s /\
   (forall i x, setitem i x (adjusted s) = setitem i x s)).
Proof.
  split.
  - split; [apply len_exec |]. split; [apply getitem_exec |].
    split; [apply getslice_exec |]. split; [apply contains_exec |].
    split; [apply count_exec |]. split; [apply index_exec |].
    split; [apply repr_exec |]. intros i x e He. by apply setitem_raise in He as [_ ->].
  - repeat split; intros; apply bind_readjust_adjusted.
Qed.

(** ** Construction *)

(** X16. A slice built with resolved bounds inside the list,
    [0 <= low < len(l)] and [low <= high <= len(l)], shows [l[low:high]]
    and has its length; negative arguments are resolved from the end of
    the list as in Python. *)
Theorem X16_init_inside h r i j :
  let n := Z.of_nat (length (h !!! r)) in
  0 <= resolve n i < n -> resolve n i <= resolve n j <= n ->
  exists v,
    ZeroCopySlice_init h (PyList r) (PyInt i) (PyInt j) = Ok v /\
    v = mkSlice r (resolve n i) (resolve n j) /\
    eval len (mkState v h) = Ok (resolve n j - resolve n i) /\
    window (mkState v h) = segment (h !!! r) (resolve n i) (resolve n j).
Proof.
  intros n Hi Hj. eexists. split; [| split; [reflexivity |]].
  - unfold ZeroCopySlice_init. simpl. fold n. fold (resolve n i) (resolve n j).
    destruct (Z.leb_spec n (resolve n i)); [lia |]. simpl.
    destruct (Z.ltb_spec n (resolve n j)); [lia | done].
  - set (t := mkState _ h).
    assert (Hat : adjusted t = clipped t).
    { apply exec_readjust_clip. change (backing_len t) with n. simpl. lia. }
    assert (Hmin : Z.min (resolve n j) (backing_len t) = resolve n j).
    { change (backing_len t) with n. lia. }
    split.
    + unfold eval. rewrite len_run, Hat. simpl. by rewrite Hmin.
    + unfold window. rewrite Hat. simpl. by rewrite Hmin.
Qed.


(** ** ZeroCopyList *)

(** X14. [ZeroCopyList(l)] makes a new list object: for a list, a tuple
    or [None] it returns a location that the store did not have, holding
    the elements of [l] (none for [None]), and leaves every other
    location as it was; for any other argument it raises [TypeError]. *)
Theorem X14_zerocopylist_init h l :
  match l with
  | PyBool _ | PyInt _ | PyStr _ => ZeroCopyList_init h l = Raise TypeError
  | PyNone | PyTuple _ | PyList _ =>
      exists z h',
        ZeroCopyList_init h l = Ok (z, h') /\
        h !! z = None /\
        h' !! z = Some (match l with
                        | PyList r => h !!! r
                        | PyTuple xs => xs
                        | _ => []
                        end) /\
        forall q, q <> z -> h' !! q = h !! q
  end.
Proof.
  assert (Hfresh : h !! fresh (dom h) = None).
  { apply not_elem_of_dom, is_fresh. }
  destruct l; simpl; try reflexivity;
    (eexists _, _; split; [reflexivity |]; split; [exact Hfresh |];
     split; [apply lookup_insert_eq | intros q Hq; by apply lookup_insert_ne]).
Qed.

(** X15. The list that a [ZeroCopyList] was built from is not its
    backing list: whatever is assigned through a slice of
    [z = ZeroCopyList(l)] leaves [l] as it was. *)
Theorem X15_copy_is_independent h r z h' i j v k x :
  is_Some (h !! r) ->
  ZeroCopyList_init h (PyList r) = Ok (z, h') ->
  ZeroCopyList_getslice h' z i j = Ok v ->
  z <> r /\
  h' !! z = Some (h !!! r) /\
  store (exec (setitem k x) (mkState v h')) !! r = h !! r.
Proof.
  intros Hr Hinit Hv. unfold ZeroCopyList_init in Hinit. injection Hinit as <- <-.
  assert (Hfresh : h !! fresh (dom h) = None).
  { apply not_elem_of_dom, is_fresh. }
  assert (Hne : fresh (dom h) <> r).
  { intros Heq. rewrite Heq in Hfresh. rewrite Hfresh in Hr. by destruct Hr. }
  split; [done |]. split; [apply lookup_insert_eq |].
  assert (Hz : zlist v = fresh (dom h)).
  { unfold ZeroCopyList_getslice, ZeroCopySlice_init in Hv.
    destruct (as_int i); [| discriminate]. destruct (as_int j); [| discriminate].
    simpl in Hv.
    repeat match type of Hv with
    | (if ?c then _ else _) = _ => destruct c; try discriminate
    end.
    by injection Hv as <-. }
  set (t := mkState v _). unfold exec.
  destruct (setitem_run t k x) as [(p & _ & _ & ->) | [(_ & _ & ->) | (_ & ->)]]; simpl.
  - rewrite Hz. rewrite !lookup_insert_ne by done. done.
  - rewrite adjusted_store. simpl. by rewrite lookup_insert_ne.
  - rewrite adjusted_store. simpl. by rewrite lookup_insert_ne.
Qed.

(** ** More on sub-views, search and bounds *)

(** X20. Sub-views compose: for a view whose lower bound is not negative
    and non-negative arguments, the sub-view [v[i:j][i2:j2]], when both
    extractions are accepted, is the sub-view [v[i + i2 : i + j2]]. *)
Theorem X20_subview_of_subview s i j i2 j2 v v2 :
  0 <= low (self s) -> 0 <= i -> 0 <= j -> 0 <= i2 -> 0 <= j2 ->
  eval (getslice i j) s = Ok v ->
  eval (getslice i2 j2) (mkState v (store s)) = Ok v2 ->
  eval (getslice (i + i2) (i + j2)) s = Ok v2.
Proof.
  intros Hlow Hi Hj Hi2 Hj2 Hv Hv2.
  destruct (subview_composition s i j v Hlow Hi Hj Hv) as [-> _].
  pose proof (adjusted_high_le s) as Hhi.
  unfold eval in Hv.
  destruct (getslice_run s i j) as [[[Hb He] _] | [_ Hr]];
    [| rewrite Hr in Hv; discriminate].
  assert (Hai : absolute (adjusted s) i = low (self (adjusted s)) + i).
  { unfold absolute. destruct (Z.ltb_spec i 0); [lia | done]. }
  assert (Haj : absolute (adjusted s) j = low (self (adjusted s)) + j).
  { unfold absolute. destruct (Z.ltb_spec j 0); [lia | done]. }
  rewrite Hai in Hb. rewrite Haj in He.
  destruct (index_ok_clipped s (low (self (adjusted s)) + i)) as (_ & Hl & _); [done |].
  rewrite Hl in *.
  set (t := mkState (mkSlice (zlist (self s)) (low (self s) + i) (low (self s) + j))
              (store s)) in *.
  assert (Hat : adjusted t = clipped t).
  { apply exec_readjust_clip. change (backing_len t) with (backing_len s). simpl. lia. }
  unfold eval in Hv2.
  destruct (getslice_run t i2 j2) as [[[Hb2 He2] Hr2] | [_ Hr2]];
    rewrite Hr2 in Hv2; [| discriminate].
  simpl in Hv2. injection Hv2 as <-.
  rewrite Hat in Hb2, He2 |- *. unfold absolute in Hb2, He2 |- *. simpl in Hb2, He2 |- *.
  change (backing_len t) with (backing_len s) in *.
  destruct (Z.ltb_spec i2 0); [lia |]. destruct (Z.ltb_spec j2 0); [lia |].
  unfold eval.
  destruct (getslice_run s (i + i2) (i + j2)) as [[_ ->] | [Hno _]]; simpl.
  - unfold absolute. rewrite Hl.
    destruct (Z.ltb_spec (i + i2) 0); [lia |].
    destruct (Z.ltb_spec (i + j2) 0); [lia |].
    f_equal. f_equal; f_equal; lia.
  - destruct Hno. unfold bounds_ok, absolute. rewrite Hl.
    destruct (Z.ltb_spec (i + i2) 0); [lia |].
    destruct (Z.ltb_spec (i + j2) 0); [lia |]. lia.
Qed.

(** A non-empty window whose lower end is below [-len(list)] cannot be
    searched. *)
Lemma index_unreadable s x :
  low (self (adjusted s)) < high (self (adjusted s)) ->
  low (self (adjusted s)) < - backing_len s ->
  index py_eq py_format x None None s = (Raise IndexError, adjusted s).
Proof.
  intros Hne H.
  destruct (index_run s x None None) as [[_ ->] | [_ ->]]; [done |].
  simpl. rewrite range_cons by done. simpl. unfold bind, list_get.
  by rewrite first_read_raises.
Qed.

(** X21. What [index] returns is where the value is: when [v.index(x)]
    returns [k], then [k >= 0], [v[k]] returns an element equal to [x],
    and [v[k2]] returns an element not equal to [x] for every
    [0 <= k2 < k]. *)
Theorem X21_index_then_getitem s x k :
  eval (index py_eq py_format x None None) s = Ok k ->
  0 <= k /\
  (exists y, eval (getitem k) s = Ok y /\ py_eq y x = true) /\
  (forall k2, 0 <= k2 < k ->
     exists y, eval (getitem k2) s = Ok y /\ py_eq y x = false).
Proof.
  intros H.
  assert (Hcases : bounds_ok (adjusted s) (low (self (adjusted s)))
                     (high (self (adjusted s))) /\
                   - backing_len s <= low (self (adjusted s))).
  { unfold eval in H.
    destruct (index_run s x None None) as [[_ Hr] | [Hok _]];
      [rewrite Hr in H; discriminate |].
    split; [exact Hok |].
    destruct (Z.le_gt_cases (- backing_len s) (low (self (adjusted s))))
      as [Hr | Hu]; [done |].
    destruct Hok as [Hb _]. simpl in Hb.
    rewrite index_unreadable in H by lia. discriminate. }
  destruct Hcases as [Hok Hread].
  destruct (index_spec s x None None Hok Hread) as (Hfound & _ & _).
  destruct (Hfound k H) as (Hin & Hk & Hmin). simpl in Hin, Hk, Hmin.
  pose proof (adjusted_high_le s) as Hhi.
  assert (Hget : forall q, 0 <= q -> low (self (adjusted s)) + q < high (self (adjusted s)) ->
            eval (getitem q) s = list_getitem (backing s) (low (self (adjusted s)) + q)).
  { intros q Hq Hlt. unfold eval.
    assert (Habs : absolute (adjusted s) q = low (self (adjusted s)) + q).
    { unfold absolute. destruct (Z.ltb_spec q 0); [lia | done]. }
    destruct (getitem_run s q) as [[_ ->] | [Hno _]]; simpl.
    - by rewrite Habs.
    - destruct Hno. unfold index_ok. rewrite Habs. lia. }
  split; [lia |]. split.
  - rewrite Hget by lia. unfold holds_at in Hk.
    destruct (list_getitem (backing s) (low (self (adjusted s)) + k)) as [y|]; [| done].
    eauto.
  - intros k2 Hk2. rewrite Hget by lia.
    destruct (list_getitem_readable (backing s) (low (self (adjusted s)) + k2))
      as [y Hy].
    { unfold readable. unfold backing_len in *. lia. }
    exists y. split; [done |].
    specialize (Hmin (low (self (adjusted s)) + k2) ltac:(lia)).
    unfold holds_at in Hmin. rewrite Hy in Hmin. by destruct (py_eq y x).
Qed.

(** X22. On a view with [0 <= low <= high], [count(x)] is between 0 and
    [len(v)]. *)
Theorem X22_count_at_most_len s x :
  0 <= low (self s) -> low (self s) <= high (self s) ->
  exists c n,
    eval (count py_eq x) s = Ok c /\ eval len s = Ok n /\ 0 <= c <= n.
Proof.
  intros Hlow Hle. pose proof (reads_window s Hlow) as Hr.
  exists (Z.of_nat (length (filter (fun y => py_eq y x) (window s)))),
         (Z.of_nat (length (window s))).
  split; [| split].
  - unfold eval, count, bind. rewrite adjusted_run. unfold get_low, get_high.
    by rewrite (count_loop_elems _ _ _ _ _ Hr).
  - unfold eval. rewrite len_run. simpl. rewrite window_length by done. f_equal.
    destruct (adjusted_cases s) as [[_ ->] | [Hn ->]]; simpl; lia.
  - pose proof (length_filter (fun y => py_eq y x) (window s)). lia.
Qed.

(** X23. On a view whose lower bound is not negative, every index
    [0 <= k < len(v)] can be read and assigned: [v[k]] and [v[k] = x]
    return. *)
Theorem X23_access_inside s k n :
  0 <= low (self s) -> eval len s = Ok n -> 0 <= k < n ->
  (exists y, eval (getitem k) s = Ok y) /\
  (forall x, eval (setitem k x) s = Ok tt).
Proof.
  intros Hlow. unfold eval. rewrite len_run. simpl. intros [= <-] Hk.
  destruct (adjusted_inside s Hlow) as [Hlo Hhi].
  assert (Habs : absolute (adjusted s) k = low (self (adjusted s)) + k).
  { unfold absolute. destruct (Z.ltb_spec k 0); [lia | done]. }
  split.
  - destruct (getitem_run s k) as [[_ ->] | [Hno _]]; simpl.
    + rewrite Habs.
      destruct (list_getitem_nonneg (backing s) (low (self (adjusted s)) + k))
        as (y & _ & ->); [unfold backing_len in Hhi; lia | eauto].
    + destruct Hno. unfold index_ok. rewrite Habs. lia.
  - intros x.
    destruct (setitem_run s k x) as [(p & _ & _ & ->) | [(_ & Hp & _) | (Hno & _)]];
      [done | |].
    + rewrite Habs in Hp.
      rewrite list_position_nonneg in Hp by (unfold backing_len in Hhi; lia).
      discriminate.
    + destruct Hno. unfold index_ok. rewrite Habs. lia.
Qed.

(** X24. When the list has become shorter than the upper bound of a
    slice, the slice shows what is left of the list from its lower bound
    on. *)
Theorem X24_window_of_shorter_list v h (l : list T) :
  0 <= low v -> Z.of_nat (length l) <= high v ->
  window (mkState v (<[zlist v := l]> h)) = drop (Z.to_nat (low v)) l.
Proof.
  intros Hlow Hhigh. set (t := mkState v _).
  assert (Hbt : backing t = l).
  { unfold backing, t. simpl. by rewrite lookup_total_insert_eq. }
  assert (Hlt : backing_len t = Z.of_nat (length l)).
  { unfold backing_len. by rewrite Hbt. }
  unfold window. rewrite Hbt.
  destruct (adjusted_cases t) as [[Hn ->] | [Hn ->]]; simpl in *; rewrite Hlt in *.
  - rewrite (drop_ge l (Z.to_nat (low v))) by lia. done.
  - rewrite take_ge; [done |]. rewrite length_drop. lia.
Qed.

(** X25. Membership and counting agree on every view: when [x in v]
    returns, [count(x)] returns a number that is at least 1 exactly when
    the answer was [True], and when [x in v] raises, [count(x)] raises
    the same exception. *)
Theorem X25_contains_agrees_with_count s x :
  match eval (contains py_eq x) s with
  | Ok b =>
      exists n, eval (count py_eq x) s = Ok n /\ 0 <= n /\ (b = true <-> 1 <= n)
  | Raise e => eval (count py_eq x) s = Raise e
  end.
Proof.
  unfold eval.
  destruct (Z.le_gt_cases (high (self (adjusted s))) (low (self (adjusted s)))) as [He | Hne].
  - rewrite contains_empty, count_empty by done. simpl.
    exists 0. split; [done |]. split; [done |]. split; [done | lia].
  - destruct (Z.le_gt_cases (- backing_len s) (low (self (adjusted s)))) as [Hr | Hu].
    + rewrite contains_run, count_run by done. simpl. unfold occurrences.
      eexists. split; [done |]. split; [lia |].
      rewrite bool_decide_eq_true. split.
      * intros Hx. pose proof (proj1 (exists_filter_length _ _) Hx). lia.
      * intros Hx. apply (proj2 (exists_filter_length _ _)). lia.
    + by rewrite contains_unreadable, count_unreadable by lia.
Qed.

End Properties.

(** ** The scenarios of the test-suite *)

Example test_len :
  on_slice (digits_slice 4 7) digits_heap len = Ok 3 /\
  on_slice (ZeroCopySlice_init empty_heap (PyList 1%positive) (PyInt 0) (PyInt 0))
    empty_heap len = Ok 0.
Proof. by vm_compute. Qed.

Example test_getitem :
  on_slice (digits_slice 4 7) digits_heap (getitem 0) = Ok 4 /\
  on_slice (digits_slice 4 7) digits_heap (getitem 1) = Ok 5 /\
  on_slice (digits_slice 4 7) digits_heap (getitem (-1)) = Ok 6 /\
  on_slice (digits_slice 4 7) digits_heap (getitem 10) = Raise IndexError.
Proof. by vm_compute. Qed.

Example test_repr :
  on_slice (digits_slice 4 7) digits_heap (repr pretty) = Ok "[4, 5, 6]"%string /\
  on_slice (digits_slice 4 5) digits_heap (repr pretty) = Ok "[4]"%string /\
  on_slice (digits_slice 4 4) digits_heap (str pretty) = Ok "[]"%string.
Proof. by vm_compute. Qed.

Example test_setitem :
  store (exec (setitem 1 23) digits_state) !!! 1%positive
    = [0; 1; 2; 3; 4; 23; 6; 7; 8; 9] /\
  eval (setitem 10 23) digits_state = Raise IndexError.
Proof. by vm_compute. Qed.

Example test_count_contains :
  eval (count Z.eqb 4) digits_state = Ok 1 /\
  eval (count Z.eqb 8) digits_state = Ok 0 /\
  eval (contains Z.eqb 4) digits_state = Ok true /\
  eval (contains Z.eqb 8) digits_state = Ok false.
Proof. by vm_compute. Qed.

Example test_getslice :
  on_slice (digits_slice 1 9) digits_heap (getslice 2 6) = Ok (mkSlice 1%positive 3 7) /\
  on_slice (digits_slice 1 9) digits_heap (getslice 2 10) = Raise IndexError.
Proof. by vm_compute. Qed.

(** ** Slices that the constructor should not have built *)

(** C1. The claim fails on the code for [len]: [ZeroCopySlice(l, 7, 4)]
    over the ten digits is built without error, renders as ['[]'], contains
    and counts nothing and raises [IndexError] on element access, but its
    [__len__] returns [high - low = -3], not 0. *)
Theorem C1_inverted_view_len :
  digits_slice 7 4 = Ok (mkSlice 1%positive 7 4) /\
  on_slice (digits_slice 7 4) digits_heap len = Ok (-3) /\
  on_slice (digits_slice 7 4) digits_heap (repr pretty) = Ok "[]"%string /\
  on_slice (digits_slice 7 4) digits_heap (contains Z.eqb 5) = Ok false /\
  on_slice (digits_slice 7 4) digits_heap (count Z.eqb 5) = Ok 0 /\
  on_slice (digits_slice 7 4) digits_heap (getitem 0) = Raise IndexError /\
  on_slice (digits_slice 7 4) digits_heap (getitem (-1)) = Raise IndexError.
Proof. by vm_compute. Qed.

(** C5. The claim fails on the code for a slice with a negative lower
    bound, which the constructor builds when [i < -len(l)].  The slice
    [ZeroCopySlice(l, -20, 5)] has bounds [(-10, 5)]; its sub-view
    [(0, 3)] resolves to [(begin, end) = (-10, -7)] but is built with the
    bounds [(0, 3)], the constructor resolving them once more.  For
    [v = ZeroCopySlice(l, -25, 5)], with bounds [(-15, 5)], the sub-view
    [(0, 3)] has bounds [(-5, -2)] and reads the digit 5 at [k = 0],
    while [v[0 + 0]] raises [IndexError]. *)
Theorem C5_subview_of_negative_low :
  digits_slice (-20) 5 = Ok (mkSlice 1%positive (-10) 5) /\
  on_slice (digits_slice (-20) 5) digits_heap (getslice 0 3)
    = Ok (mkSlice 1%positive 0 3) /\
  digits_slice (-25) 5 = Ok (mkSlice 1%positive (-15) 5) /\
  on_slice (digits_slice (-25) 5) digits_heap (getslice 0 3)
    = Ok (mkSlice 1%positive (-5) (-2)) /\
  on_slice (on_slice (digits_slice (-25) 5) digits_heap (getslice 0 3))
    digits_heap (getitem 0) = Ok 5 /\
  on_slice (digits_slice (-25) 5) digits_heap (getitem (0 + 0)) = Raise IndexError.
Proof. by vm_compute. Qed.

(** C6. The claim fails on the code for a slice with a negative lower
    bound: [v = ZeroCopySlice(l, -25, 5)] has bounds [(-15, 5)] and length
    20, the index 0 passes the slice's own check [low <= -15 < high], and
    [v[0] = 99] raises [IndexError] from the list: nothing is written and
    the list is as before. *)
Theorem C6_write_through_negative_low :
  digits_slice (-25) 5 = Ok (mkSlice 1%positive (-15) 5) /\
  on_slice (digits_slice (-25) 5) digits_heap len = Ok 20 /\
  eval (verify_index (-15)) (adjusted (mkState (mkSlice 1%positive (-15) 5) digits_heap))
    = Ok tt /\
  on_slice (digits_slice (-25) 5) digits_heap (setitem 0 99) = Raise IndexError /\
  store (exec (setitem 0 99) (mkState (mkSlice 1%positive (-15) 5) digits_heap))
    = digits_heap.
Proof. by vm_compute. Qed.

(** C7. On the slice [[4, 7)] of the ten digits [index(5)] is 1 and
    [index(8)] raises [ValueError], and a search from [start = 1] counts
    from the resolved start.  The claim fails on the code for a slice with
    a negative lower bound: no element of [ZeroCopySlice(l, -25, 5)]
    equals 99, its range [(-15, 5)] passes the validation, and
    [index(99)] raises [IndexError], not the not-found error. *)
Theorem C7_search_negative_low :
  on_slice (digits_slice 4 7) digits_heap (index Z.eqb int_format 5 None None) = Ok 1 /\
  on_slice (digits_slice 4 7) digits_heap (index Z.eqb int_format 8 None None)
    = Raise ValueError /\
  on_slice (digits_slice 4 7) digits_heap (index Z.eqb int_format 6 (Some 1) None) = Ok 1 /\
  on_slice (digits_slice 4 7) digits_heap (index Z.eqb int_format 6 (Some (-2)) (Some 3))
    = Ok 1 /\
  eval (verify_bounds (-15) 5) (adjusted (mkState (mkSlice 1%positive (-15) 5) digits_heap))
    = Ok tt /\
  on_slice (digits_slice (-25) 5) digits_heap (index Z.eqb int_format 99 None None)
    = Raise IndexError.
Proof. by vm_compute. Qed.

(** C10. The claim fails on the code for a slice with a negative lower
    bound: on [ZeroCopySlice(l, -25, 5)], whose window [(-15, 5)] holds
    the digit 0 at the indices -10 and 0, [count(0)] raises [IndexError]
    instead of returning a number, and so does [contains(0)]. *)
Theorem C10_count_negative_low :
  digits_slice (-25) 5 = Ok (mkSlice 1%positive (-15) 5) /\
  holds_at Z.eqb digits 0 (-10) = true /\
  holds_at Z.eqb digits 0 0 = true /\
  on_slice (digits_slice (-25) 5) digits_heap (count Z.eqb 0) = Raise IndexError /\
  on_slice (digits_slice (-25) 5) digits_heap (contains Z.eqb 0) = Raise IndexError.
Proof. by vm_compute. Qed.

(** ** The theorems at work *)

(** The slice [[4, 7)] after the list has shrunk to three elements, and
    after it has shrunk to six. *)
Lemma C2_shrink_witness :
  len shrunk_state = (Ok 0, collapsed shrunk_state) /\
  getitem 0 shrunk_state = (Raise IndexError, collapsed shrunk_state) /\
  setitem (-1) 9 shrunk_state = (Raise IndexError, collapsed shrunk_state) /\
  high (self (clipped (mkState slice_4_7 {[ 1%positive := seqZ 0 6 ]}))) = 6.
Proof.
  destruct (C2_shrink_invariant Z.eqb pretty int_format shrunk_state)
    as (Hc & _).
  destruct (Hc ltac:(by vm_compute)) as (_ & _ & _ & Hlen & Hget & Hset & _).
  destruct (C2_shrink_invariant Z.eqb pretty int_format
              (mkState slice_4_7 {[ 1%positive := seqZ 0 6 ]}))
    as (_ & Hk & _).
  destruct (Hk ltac:(by vm_compute)) as (_ & _ & _ & Hhigh & _).
  split; [exact Hlen |]. split; [apply Hget |]. split; [apply Hset |].
  rewrite Hhigh. reflexivity.
Defined.

(** [ZeroCopySlice([], 0, 0)], [ZeroCopySlice([], 1, 1)] and arguments of
    the wrong type. *)
Lemma C3_construction_witness :
  ZeroCopySlice_init empty_heap (PyList 1%positive) (PyInt 0) (PyInt 0)
    = Ok (mkSlice 1%positive 0 0) /\
  on_slice (ZeroCopySlice_init empty_heap (PyList 1%positive) (PyInt 0) (PyInt 0))
    empty_heap len = Ok 0 /\
  ZeroCopySlice_init empty_heap (PyList 1%positive) (PyInt 1) (PyInt 1)
    = Raise IndexError /\
  ZeroCopySlice_init digits_heap (PyList 1%positive) (PyInt (-3)) (PyInt (-1))
    = Ok (mkSlice 1%positive 7 9) /\
  ZeroCopySlice_init digits_heap (PyTuple [1; 2]) (PyInt 0) (PyInt 1)
    = Raise TypeError /\
  ZeroCopySlice_init digits_heap (PyList 1%positive) (PyStr "0") (PyInt 1)
    = Raise TypeError /\
  ZeroCopySlice_init digits_heap (PyList 1%positive) (PyInt 0) PyNone
    = Raise TypeError.
Proof.
  assert (Hempty : Z.of_nat (length (empty_heap !!! 1%positive)) = 0) by by vm_compute.
  assert (Hdigits : Z.of_nat (length (digits_heap !!! 1%positive)) = 10) by by vm_compute.
  destruct (C3_construction empty_heap) as (Hidx & _).
  destruct (Hidx 1%positive (PyInt 0) (PyInt 0) 0 0 eq_refl eq_refl) as (_ & Hok0).
  destruct (Hidx 1%positive (PyInt 1) (PyInt 1) 1 1 eq_refl eq_refl) as (Hraise & _).
  destruct (C3_construction digits_heap) as (Hidx' & Hty & _).
  destruct (Hidx' 1%positive (PyInt (-3)) (PyInt (-1)) (-3) (-1) eq_refl eq_refl)
    as (_ & Hok).
  rewrite Hempty in Hok0, Hraise. rewrite Hdigits in Hok.
  unfold resolve in Hok0, Hraise, Hok. simpl in Hok0, Hraise, Hok.
  split; [apply Hok0; lia |].
  split; [by vm_compute |].
  split; [apply Hraise; lia |].
  split; [apply Hok; lia |].
  split; [apply Hty; left; intros r; discriminate |].
  split; [apply Hty; right; by left | apply Hty; right; by right].
Defined.

(** Sub-views of the slice [[4, 7)] of the digits: [s[1:3]] is accepted,
    [s[5:6]] is refused, and so is the boundary [s[3:3]]. *)
Lemma C4_subview_witness :
  (exists v, eval (getslice 1 3) digits_state = Ok v) /\
  eval (getslice 5 6) digits_state = Raise IndexError /\
  eval (getslice 3 3) digits_state = Raise IndexError.
Proof.
  assert (Ha : adjusted digits_state = digits_state) by by vm_compute.
  destruct (C4_subview_validation digits_state 1 3) as (Hiff & _).
  destruct (C4_subview_validation digits_state 5 6) as (_ & Hno & _).
  destruct (C4_subview_validation digits_state 0 0) as (_ & _ & Hb).
  rewrite Ha in Hiff, Hno. unfold absolute in Hiff, Hno. simpl in Hiff, Hno.
  split; [apply Hiff; lia |].
  split; [apply Hno; lia |].
  apply (Hb 3); [by vm_compute | lia].
Defined.

(** [s[10] = 23] on the slice [[4, 7)] raises and the list is as before;
    [s[1] = 23] replaces one element. *)
Lemma C8_atomicity_witness :
  store (exec (setitem 10 23) digits_state) = digits_heap /\
  backing (exec (setitem 10 23) digits_state) = digits /\
  store (exec (setitem 1 23) digits_state)
    = <[1%positive := <[5%nat := 23]> digits]> digits_heap.
Proof.
  destruct (C8_atomicity Z.eqb pretty int_format digits_state)
    as (Hraise & _ & Hok & _).
  destruct (Hraise 10 23 IndexError ltac:(by vm_compute)) as [Hs Hb].
  destruct (Hok 1 23 ltac:(by vm_compute)) as (p & Hp & Hw).
  split; [exact Hs |]. split; [exact Hb |].
  rewrite Hw. assert (p = 5%nat) as -> by (vm_compute in Hp; congruence).
  reflexivity.
Defined.

(** [z = ZeroCopyList(l)], [s = z[4:7]] and [s[1] = 23]: [z[5]] is 23 and
    the list [l] that [z] was built from is as before; [z[6] = 42] by the
    owner is read as [s[2]]. *)
Lemma C9_viewable_slice_witness :
  ZeroCopyList_getslice zcl_heap 2%positive (PyInt 4) (PyInt 7)
    = Ok (mkSlice 2%positive 4 7) /\
  store (exec (setitem 1 23) (mkState (mkSlice 2%positive 4 7) zcl_heap)) !!! 2%positive
    = [0; 1; 2; 3; 4; 23; 6; 7; 8; 9] /\
  store (exec (setitem 1 23) (mkState (mkSlice 2%positive 4 7) zcl_heap)) !!! 1%positive
    = digits /\
  eval (getitem 2)
    (mkState (mkSlice 2%positive 4 7) (<[2%positive := <[6%nat := 42]> digits]> zcl_heap))
    = Ok 42.
Proof.
  destruct (C9_viewable_slice zcl_heap 2%positive (PyInt 4) (PyInt 7)) as (_ & Hv).
  destruct (Hv (mkSlice 2%positive 4 7) ltac:(by vm_compute))
    as (_ & _ & Hthrough & _ & Hback).
  destruct (Hthrough 1 23 ltac:(by vm_compute)) as (p & Hp & Hw & _).
  assert (p = 5%nat) as -> by (vm_compute in Hp; congruence).
  split; [by vm_compute |].
  split; [rewrite Hw; by vm_compute |].
  split; [by vm_compute |].
  apply (Hback 6 42); [by vm_compute | simpl; lia].
Defined.

(** ** The further properties at work

    The slice [s = ZeroCopySlice(l, 4, 7)] of the ten digits shows
    [[4, 5, 6]]. *)

Lemma X1_getitem_witness :
  eval (getitem 1) digits_state = Ok 5 /\
  eval (getitem 3) digits_state = Raise IndexError.
Proof.
  split.
  - rewrite (X1_getitem_window digits_state 1) by (simpl; lia). by vm_compute.
  - rewrite (X1_getitem_window digits_state 3) by (simpl; lia). by vm_compute.
Defined.

Lemma X2_len_witness : eval len digits_state = Ok 3.
Proof. rewrite (X2_len_window digits_state) by (simpl; lia). by vm_compute. Defined.

Lemma X3_negative_index_witness :
  getitem (-1) digits_state = getitem 2 digits_state /\
  eval (getitem (-4)) digits_state = Raise IndexError.
Proof.
  destruct (X3_negative_index digits_state (-1) 3) as [Hin _];
    [by vm_compute | lia |].
  destruct (X3_negative_index digits_state (-4) 3) as [_ Hout];
    [by vm_compute | lia |].
  split; [apply Hin; lia | apply Hout; lia].
Defined.

Lemma X4_count_contains_witness :
  eval (count Z.eqb 5) digits_state = Ok 1 /\
  eval (contains Z.eqb 8) digits_state = Ok false.
Proof.
  destruct (X4_count_contains_window Z.eqb digits_state 5) as [Hc _]; [simpl; lia |].
  destruct (X4_count_contains_window Z.eqb digits_state 8) as [_ Hin]; [simpl; lia |].
  rewrite Hc, Hin. by vm_compute.
Defined.

Lemma X5_repr_witness :
  eval (repr pretty) digits_state = Ok "[4, 5, 6]"%string /\
  eval (repr pretty) shrunk_state = Ok "[]"%string.
Proof.
  destruct (X5_repr_window pretty digits_state) as [Hr _]; [simpl; lia |].
  destruct (X5_repr_window pretty shrunk_state) as [Hs _]; [simpl; lia |].
  rewrite Hr, Hs. by vm_compute.
Defined.

Lemma X6_index_witness :
  eval (index Z.eqb int_format 6 (Some 1) None) digits_state = Ok 1 /\
  eval (index Z.eqb int_format 4 (Some 1) None) digits_state = Raise ValueError.
Proof.
  split.
  - rewrite (X6_index_segment Z.eqb int_format digits_state 6 (Some 1) None);
      [by vm_compute | simpl; lia | by vm_compute | by vm_compute].
  - rewrite (X6_index_segment Z.eqb int_format digits_state 4 (Some 1) None);
      [by vm_compute | simpl; lia | by vm_compute | by vm_compute].
Defined.

Lemma X7_read_after_write_witness :
  eval (getitem (-2)) (exec (setitem (-2) 23) digits_state) = Ok 23.
Proof. apply (X7_read_after_write digits_state (-2) 23). by vm_compute. Defined.

Lemma X8_setitem_window_witness :
  window (exec (setitem 1 23) digits_state) = [4; 23; 6].
Proof.
  rewrite (X8_setitem_window digits_state 1 23); [by vm_compute | simpl; lia | lia | by vm_compute].
Defined.

(** Another slice, [[2, 6)], of the digits sees the write at its own
    position 3; a slice of the copy made by [ZeroCopyList] does not. *)
Lemma X9_write_seen_witness :
  window (mkState (mkSlice 1%positive 2 6) (store (exec (setitem 1 23) digits_state)))
    = [2; 3; 4; 23].
Proof.
  destruct (X9_write_seen_by_slices digits_state 1 23 (mkSlice 1%positive 2 6))
    as [Hsame _]; [simpl; lia | lia | simpl; lia | by vm_compute |].
  rewrite Hsame by reflexivity. by vm_compute.
Defined.

Lemma X10_subview_window_witness :
  window (mkState (mkSlice 1%positive 5 7) digits_heap) = [5; 6].
Proof.
  change digits_heap with (store digits_state).
  rewrite (X10_subview_window digits_state 1 3 (mkSlice 1%positive 5 7));
    [by vm_compute | simpl; lia | lia | lia | by vm_compute].
Defined.

Lemma X11_subview_setitem_witness :
  eval (setitem 2 23) digits_state = Ok tt /\
  store (exec (setitem 2 23) digits_state)
    = store (exec (setitem 1 23) (mkState (mkSlice 1%positive 5 7) digits_heap)).
Proof.
  apply (X11_subview_setitem digits_state 1 3 1 23 (mkSlice 1%positive 5 7));
    [simpl; lia | lia | lia | lia | by vm_compute | by vm_compute].
Defined.

Lemma X12_append_witness :
  window (mkState slice_4_7 (<[1%positive := digits ++ [10; 11]]> digits_heap))
    = [4; 5; 6].
Proof.
  etransitivity;
    [apply (X12_append_keeps_window slice_4_7 digits_heap digits [10; 11]);
       [simpl; lia | by vm_compute]
    | by vm_compute].
Defined.

(** The slice [[4, 7)] read once while the list had three elements, and
    read again after the list has its ten elements back. *)
Lemma X13_collapse_witness :
  eval len (mkState (self (exec len shrunk_state)) digits_heap) = Ok 0.
Proof.
  apply (X13_collapse_is_permanent shrunk_state digits_heap). by vm_compute.
Defined.

Lemma X15_copy_witness :
  store (exec (setitem 1 23) (mkState (mkSlice 2%positive 4 7) zcl_heap)) !! 1%positive
    = Some digits.
Proof.
  destruct (X15_copy_is_independent digits_heap 1%positive 2%positive zcl_heap
              (PyInt 4) (PyInt 7) (mkSlice 2%positive 4 7) 1 23)
    as (_ & _ & Hl); [by eexists | by vm_compute | by vm_compute |].
  rewrite Hl. by vm_compute.
Defined.

Lemma X16_init_witness :
  ZeroCopySlice_init digits_heap (PyList 1%positive) (PyInt (-6)) (PyInt 7)
    = Ok slice_4_7 /\
  window digits_state = [4; 5; 6].
Proof.
  assert (Hn : Z.of_nat (length (digits_heap !!! 1%positive)) = 10) by by vm_compute.
  destruct (X16_init_inside digits_heap 1%positive (-6) 7) as (v & Hv & -> & _ & Hw).
  - rewrite Hn. unfold resolve. simpl. lia.
  - rewrite Hn. unfold resolve. simpl. lia.
  - rewrite Hn in Hv, Hw. split; [exact Hv |]. by vm_compute.
Defined.

Lemma X17_empty_window_witness :
  eval (index Z.eqb int_format 4 None None)
    (mkState (mkSlice 1%positive 4 4) digits_heap) = Raise IndexError.
Proof.
  apply (X17_empty_window_raises Z.eqb int_format
           (mkState (mkSlice 1%positive 4 4) digits_heap)). simpl. lia.
Defined.


(** [ZeroCopySlice(l, 1, 9)[2:6][1:3]] is [ZeroCopySlice(l, 1, 9)[3:5]]. *)
Lemma X20_subview_of_subview_witness :
  eval (getslice 3 5) (mkState (mkSlice 1%positive 1 9) digits_heap)
    = Ok (mkSlice 1%positive 4 6).
Proof.
  apply (X20_subview_of_subview (mkState (mkSlice 1%positive 1 9) digits_heap)
           2 6 1 3 (mkSlice 1%positive 3 7));
    [simpl; lia | lia | lia | lia | lia | by vm_compute | by vm_compute].
Defined.

Lemma X21_index_then_getitem_witness :
  exists y, eval (getitem 2) digits_state = Ok y /\ (y =? 6) = true.
Proof.
  apply (X21_index_then_getitem Z.eqb int_format digits_state 6 2). by vm_compute.
Defined.

Lemma X22_count_at_most_len_witness :
  exists c n,
    eval (count Z.eqb 5) digits_state = Ok c /\
    eval len digits_state = Ok n /\ 0 <= c <= n.
Proof. apply (X22_count_at_most_len Z.eqb digits_state 5); simpl; lia. Defined.

Lemma X23_access_inside_witness :
  (exists y, eval (getitem 2) digits_state = Ok y) /\
  (forall x, eval (setitem 2 x) digits_state = Ok tt).
Proof.
  apply (X23_access_inside digits_state 2 3); [simpl; lia | by vm_compute | lia].
Defined.

(** The slice [[4, 7)] over a list of six elements. *)
Lemma X24_shorter_list_witness :
  window (mkState slice_4_7 (<[1%positive := seqZ 0 6]> digits_heap)) = [4; 5].
Proof.
  etransitivity;
    [apply (X24_window_of_shorter_list slice_4_7 digits_heap (seqZ 0 6));
       [simpl; lia | by vm_compute]
    | by vm_compute].
Defined.
